(** * vscode-csproj: the extension's command layer

    A shallow embedding of [src/extension.ts], [src/statusbar.ts] and
    [src/types.ts].  Every call that leaves the extension (prompts, console,
    descriptor operations, command dispatch) is recorded in the trace of a
    run, so that statements such as "no prompt was shown" or "the descriptor
    was persisted" are statements about traces.

    Conventions of the model:
    - a command or a listener is run to completion.  The flush of a
      deletion batch is modelled twice: run to its end in one step
      ([debouncedRemoveFromCsproj_func], used where one flush is looked at
      on its own), and cut at its [await]s and interleaved with the other
      events by an event loop ([run_loop]); [flush_alone] shows that the
      turns of a flush that is not interrupted add up to the first;
    - the host's answers are inputs, gathered in a [Host] record: what a
      path resolves to, what the user picks in a prompt, the configuration,
      which writes fail.  Prompts and command dispatch return; they do not
      reject;
    - time is a logical clock in milliseconds, and the debounced function
      is the trailing-edge debounce of [lodash.debounce]: each call keeps
      its arguments and restarts the timer;
    - arrays that are shared by reference ([_csprojRemovals] and the
      arguments kept by the debounced function) live in a heap. *)

From Stdlib Require Import ZArith List String Ascii Bool Lia DecimalString.
From stdpp Require Import base option list strings gmap.
Import ListNotations.

Local Open Scope string_scope.
Local Open Scope Z_scope.

(** ** Node's [path] module (POSIX flavour)

    [extension.ts] uses [path.basename] and [path.extname].  Both scan the
    string from its last character towards the first, keeping a few integer
    cursors; the loops below keep the cursors of Node's implementation. *)

Module Path.

Definition CHAR_FORWARD_SLASH : ascii := "/"%char.
Definition CHAR_DOT : ascii := "."%char.

Definition chars (s : string) : list ascii := list_ascii_of_string s.

(** [path.slice(start, end)] for [0 <= start <= end <= length]. *)
Definition slice (s : string) (start end_ : Z) : string :=
  substring (Z.to_nat start) (Z.to_nat (end_ - start)) s.

Record BaseState := {
  b_start : Z;
  b_end : Z;
  b_matchedSlash : bool
}.

(** The body of the [for (i = path.length - 1; i >= 0; --i)] loop of
    [basename]; [rev_chars] holds the characters at positions [i], [i-1],
    ..., [0]. *)
Fixpoint basename_scan (rev_chars : list ascii) (i : Z) (s : BaseState)
  : BaseState :=
  match rev_chars with
  | [] => s
  | c :: rest =>
      if Ascii.eqb c CHAR_FORWARD_SLASH then
        if negb (b_matchedSlash s)
        then {| b_start := i + 1; b_end := b_end s;
                b_matchedSlash := b_matchedSlash s |}
        else basename_scan rest (i - 1) s
      else if b_end s =? -1 then
        basename_scan rest (i - 1)
          {| b_start := b_start s; b_end := i + 1; b_matchedSlash := false |}
      else basename_scan rest (i - 1) s
  end.

Definition basename (p : string) : string :=
  let s := basename_scan (rev (chars p)) (Z.of_nat (String.length p) - 1)
             {| b_start := 0; b_end := -1; b_matchedSlash := true |} in
  if b_end s =? -1 then EmptyString else slice p (b_start s) (b_end s).

Record ExtState := {
  startDot : Z;
  startPart : Z;
  end_ : Z;
  matchedSlash : bool;
  preDotState : Z
}.

Definition mark_end (i : Z) (s : ExtState) : ExtState :=
  if end_ s =? -1 then
    {| startDot := startDot s; startPart := startPart s; end_ := i + 1;
       matchedSlash := false; preDotState := preDotState s |}
  else s.

Definition see_char (c : ascii) (i : Z) (s : ExtState) : ExtState :=
  if Ascii.eqb c CHAR_DOT then
    if startDot s =? -1 then
      {| startDot := i; startPart := startPart s; end_ := end_ s;
         matchedSlash := matchedSlash s; preDotState := preDotState s |}
    else if negb (preDotState s =? 1) then
      {| startDot := startDot s; startPart := startPart s; end_ := end_ s;
         matchedSlash := matchedSlash s; preDotState := 1 |}
    else s
  else if negb (startDot s =? -1) then
    {| startDot := startDot s; startPart := startPart s; end_ := end_ s;
       matchedSlash := matchedSlash s; preDotState := -1 |}
  else s.

Fixpoint extname_scan (rev_chars : list ascii) (i : Z) (s : ExtState)
  : ExtState :=
  match rev_chars with
  | [] => s
  | c :: rest =>
      if Ascii.eqb c CHAR_FORWARD_SLASH then
        if negb (matchedSlash s)
        then {| startDot := startDot s; startPart := i + 1; end_ := end_ s;
                matchedSlash := matchedSlash s;
                preDotState := preDotState s |}
        else extname_scan rest (i - 1) s
      else extname_scan rest (i - 1) (see_char c i (mark_end i s))
  end.

Definition extname (p : string) : string :=
  let s := extname_scan (rev (chars p)) (Z.of_nat (String.length p) - 1)
             {| startDot := -1; startPart := 0; end_ := -1;
                matchedSlash := true; preDotState := 0 |} in
  if (startDot s =? -1) || (end_ s =? -1) || (preDotState s =? 0)
     || ((preDotState s =? 1) && (startDot s =? end_ s - 1)
         && (startDot s =? startPart s + 1))
  then EmptyString
  else slice p (startDot s) (end_ s).

End Path.

(** ** [types.ts] *)

Record Csproj := {
  fsPath : string;
  name : string
  (* [xml] is the parsed tree; it is mutated in place, so it lives in the
     world's store under the descriptor's path and not in this handle *)
}.

Record CsprojAndFile := {
  csproj : Csproj;
  filePath : string
}.

(** [type ItemType = string | { [extension: string]: string }] *)
Inductive ItemType :=
| Uniform (tag : string)
| ByExtension (tags : gmap string string).

(** ** Item-type resolution, [getTypeForFile] *)

(** [a || b] where [a] is a string or [undefined]: [undefined] and the empty
    string are the falsy values. *)
Definition truthy (v : option string) : bool :=
  match v with
  | Some s => negb (String.eqb s EmptyString)
  | None => false
  end.

Definition js_or (a b : option string) : option string :=
  if truthy a then a else b.

(** Property access [itemType[key]] on the configuration object.  The keys
    used are an extension (empty or starting with a dot) and ["*"], none of
    which names a property inherited from [Object.prototype]. *)
Definition getTypeForFile (fileName : string) (itemType : ItemType) : string :=
  let extension := Path.extname fileName in
  match itemType with
  | Uniform tag => tag
  | ByExtension tags =>
      default "Content"
        (js_or (js_or (tags !! extension) (tags !! "*")) (Some "Content"))
  end.

(** The resolution as the specification words it: the tag found under the
    extension, else the tag found under the wildcard, else the default. *)
Definition resolution_as_specified (fileName : string) (itemType : ItemType)
  : string :=
  match itemType with
  | Uniform tag => tag
  | ByExtension tags =>
      match tags !! Path.extname fileName with
      | Some tag => tag
      | None =>
          match tags !! "*" with
          | Some tag => tag
          | None => "Content"
          end
      end
  end.

(** No extension is mapped to the empty string. *)
Definition no_empty_tag (itemType : ItemType) : bool :=
  match itemType with
  | Uniform _ => true
  | ByExtension tags =>
      forallb (fun kv => negb (String.eqb (snd kv) EmptyString))
        (map_to_list tags)
  end.

(** The value [config.get<ItemType>('itemType', ...)] falls back to. *)
Definition default_itemType : ItemType :=
  ByExtension (<[".ts" := "TypeScriptCompile"]> {["*" := "Content"]}).

(** ** Values, errors and the trace *)

Inductive JsError :=
| NoCsprojError (message : string)
| TypeError (message : string)
| OtherError (message : string).

(** [err.name] and [err.message] *)
Definition error_name (err : JsError) : string :=
  match err with
  | TypeError _ => "TypeError"
  | NoCsprojError _ | OtherError _ => "Error"
  end.

Definition error_message (err : JsError) : string :=
  match err with
  | NoCsprojError m | TypeError m | OtherError m => m
  end.

(** [err.toString()], that is [Error.prototype.toString]: the name alone
    when the message is empty, else the name, a colon and the message. *)
Definition toString (err : JsError) : string :=
  if String.eqb (error_message err) EmptyString then error_name err
  else error_name err +:+ ": " +:+ error_message err.

(** [err instanceof CsprojUtil.NoCsprojError] *)
Definition instanceof_NoCsprojError (err : JsError) : bool :=
  match err with
  | NoCsprojError _ => true
  | _ => false
  end.

(** What a status-bar function hands back to its caller. *)
Inductive JsValue :=
| VUndefined
| VBool (b : bool)
| VObject.

Definition value_truthy (v : JsValue) : bool :=
  match v with
  | VBool b => b
  | VObject => true
  | VUndefined => false
  end.

(** Calls that leave the extension, in the order they are made. *)
Inductive Effect :=
| ConsoleLog (msg : string)
| ConsoleTrace (err : JsError)
| ShowInformationMessage (msg : string) (items : list string)
| ShowWarningMessage (msg : string) (items : list string)
| ShowErrorMessage (msg : string)
| RegisterCommand (command : string)
| RegisterListener (event : string)
| ExecuteCommand (command : string) (path : string)
| ForFile (path : string)
| AddFile (c : Csproj) (path : string) (tag : string)
| RemoveFile (c : Csproj) (path : string)
| Persist (c : Csproj) (written : bool)
| DisableInvalidation
| EnableInvalidation
| InvalidateAll
| GlobalStateUpdate (paths : list string)
| UnhandledRejection (err : JsError).

(** ** The world: every piece of mutable state the extension touches *)

(** One item element of a descriptor: its [Include] attribute and tag. *)
Record ItemEntry := {
  include : string;
  tag : string
}.

Record StatusBarItem := {
  text : string;
  tooltip : string;
  shown : bool;
  command : string
}.

Record World := {
  (** parsed descriptor trees, by descriptor path *)
  trees : gmap string (list ItemEntry);
  (** the suppression flag toggled by [disableInvalidation] *)
  invalidationDisabled : bool;
  (** [globalState.get('csproj.ignorePaths')], [None] while never set *)
  ignorePaths : option (list string);
  (** [statusbar.ts]: [_statusBarItem] and [_statusBarItemVisible] *)
  _statusBarItem : option StatusBarItem;
  _statusBarItemVisible : bool;
  (** array objects; [_csprojRemovals] and the arguments kept by the
      debounced function are references into this heap *)
  heap : list (list CsprojAndFile);
  _csprojRemovals : nat;
  (** the pending timer of the debounced function: deadline and last
      arguments *)
  timer : option (Z * nat);
  (** the logical clock, in milliseconds *)
  now : Z
}.

Definition set_trees (f : gmap string (list ItemEntry) -> gmap string (list ItemEntry))
  (w : World) : World :=
  {| trees := f (trees w); invalidationDisabled := invalidationDisabled w;
     ignorePaths := ignorePaths w; _statusBarItem := _statusBarItem w;
     _statusBarItemVisible := _statusBarItemVisible w; heap := heap w;
     _csprojRemovals := _csprojRemovals w; timer := timer w; now := now w |}.

Definition set_invalidationDisabled (b : bool) (w : World) : World :=
  {| trees := trees w; invalidationDisabled := b;
     ignorePaths := ignorePaths w; _statusBarItem := _statusBarItem w;
     _statusBarItemVisible := _statusBarItemVisible w; heap := heap w;
     _csprojRemovals := _csprojRemovals w; timer := timer w; now := now w |}.

Definition set_ignorePaths (l : option (list string)) (w : World) : World :=
  {| trees := trees w; invalidationDisabled := invalidationDisabled w;
     ignorePaths := l; _statusBarItem := _statusBarItem w;
     _statusBarItemVisible := _statusBarItemVisible w; heap := heap w;
     _csprojRemovals := _csprojRemovals w; timer := timer w; now := now w |}.

Definition set_statusBar (i : option StatusBarItem) (v : bool) (w : World)
  : World :=
  {| trees := trees w; invalidationDisabled := invalidationDisabled w;
     ignorePaths := ignorePaths w; _statusBarItem := i;
     _statusBarItemVisible := v; heap := heap w;
     _csprojRemovals := _csprojRemovals w; timer := timer w; now := now w |}.

Definition set_heap (h : list (list CsprojAndFile)) (r : nat) (w : World)
  : World :=
  {| trees := trees w; invalidationDisabled := invalidationDisabled w;
     ignorePaths := ignorePaths w; _statusBarItem := _statusBarItem w;
     _statusBarItemVisible := _statusBarItemVisible w; heap := h;
     _csprojRemovals := r; timer := timer w; now := now w |}.

Definition set_timer (t : option (Z * nat)) (w : World) : World :=
  {| trees := trees w; invalidationDisabled := invalidationDisabled w;
     ignorePaths := ignorePaths w; _statusBarItem := _statusBarItem w;
     _statusBarItemVisible := _statusBarItemVisible w; heap := heap w;
     _csprojRemovals := _csprojRemovals w; timer := t; now := now w |}.

Definition set_now (t : Z) (w : World) : World :=
  {| trees := trees w; invalidationDisabled := invalidationDisabled w;
     ignorePaths := ignorePaths w; _statusBarItem := _statusBarItem w;
     _statusBarItemVisible := _statusBarItemVisible w; heap := heap w;
     _csprojRemovals := _csprojRemovals w; timer := timer w; now := t |}.

(** The world right after the module is loaded: [_csprojRemovals = []], no
    status-bar item, nothing pending. *)
Definition init (ts : gmap string (list ItemEntry)) (ignored : option (list string))
  : World :=
  {| trees := ts; invalidationDisabled := false; ignorePaths := ignored;
     _statusBarItem := None; _statusBarItemVisible := false;
     heap := [[]]; _csprojRemovals := 0%nat; timer := None; now := 0 |}.

(** ** The monad: state, trace and exceptions *)

Inductive Outcome (A : Type) :=
| Returned (a : A)
| Thrown (err : JsError).
Arguments Returned {A} a.
Arguments Thrown {A} err.

Record Run (A : Type) := {
  outcome : Outcome A;
  world : World;
  effects : list Effect
}.
Arguments outcome {A} r.
Arguments world {A} r.
Arguments effects {A} r.

Definition M (A : Type) : Type := World -> Run A.

Definition ret {A} (a : A) : M A :=
  fun w => {| outcome := Returned a; world := w; effects := [] |}.

(** The effects of a step go in front of those of its continuation. *)
Definition after {A} (es : list Effect) (r : Run A) : Run A :=
  match r with
  | {| outcome := o; world := w; effects := es' |} =>
      {| outcome := o; world := w; effects := es ++ es' |}
  end.

Definition bind {A B} (m : M A) (k : A -> M B) : M B :=
  fun w =>
    match m w with
    | {| outcome := Returned a; world := w1; effects := es |} =>
        after es (k a w1)
    | {| outcome := Thrown e; world := w1; effects := es |} =>
        {| outcome := Thrown e; world := w1; effects := es |}
    end.

Definition throw {A} (e : JsError) : M A :=
  fun w => {| outcome := Thrown e; world := w; effects := [] |}.

(** [try { body } catch (err) { handler }] *)
Definition try_catch {A} (body : M A) (handler : JsError -> M A) : M A :=
  fun w =>
    match body w with
    | {| outcome := Returned a; world := w1; effects := es |} =>
        {| outcome := Returned a; world := w1; effects := es |}
    | {| outcome := Thrown e; world := w1; effects := es |} =>
        after es (handler e w1)
    end.

Definition emit (e : Effect) : M unit :=
  fun w => {| outcome := Returned tt; world := w; effects := [e] |}.

Definition get : M World :=
  fun w => {| outcome := Returned w; world := w; effects := [] |}.

Definition modify (f : World -> World) : M unit :=
  fun w => {| outcome := Returned tt; world := f w; effects := [] |}.

Declare Scope js_scope.
Delimit Scope js_scope with js.
Notation "x <- m ;; k" := (bind m (fun x => k))
  (at level 100, m at next level, right associativity) : js_scope.
Notation "m ;; k" := (bind m (fun _ => k))
  (at level 100, right associativity) : js_scope.
Local Open Scope js_scope.

(** [for (const x of xs) { await body(x) }] *)
Fixpoint for_of {A} (xs : list A) (body : A -> M unit) : M unit :=
  match xs with
  | [] => ret tt
  | x :: rest => body x ;; for_of rest body
  end.

(** ** The host: what the editor, the user and the file system answer *)

Record Host := {
  (** outcome of resolving the descriptor that governs a path *)
  resolve : string -> JsError + Csproj;
  (** the path of a file relative to a descriptor's directory *)
  relativeTo : Csproj -> string -> string;
  (** failure of [removeFile], if any *)
  removeFile_failure : Csproj -> string -> option JsError;
  (** I/O failure of [persist], if any *)
  persist_failure : Csproj -> option JsError;
  (** the item of a prompt the user picks, by position; [None] when the
      prompt is dismissed or loses focus *)
  choose : string -> option nat;
  (** [config.get('enabled', true)] *)
  enabled : bool;
  (** [config.get('silentDeletion', false)] *)
  silentDeletion : bool;
  (** [config.get('itemType', {'*': 'Content', '.ts': 'TypeScriptCompile'})] *)
  itemType : ItemType;
  (** [config.get('includeRegex', '.*')] and [config.get('excludeRegex',
      null)]; [None] is [null] *)
  includeRegex : option string;
  excludeRegex : option string;
  (** [new RegExp(pattern).test(s)]; a malformed pattern throws *)
  regexp_test : string -> string -> JsError + bool
}.

(** A message prompt resolves to one of the offered items or to
    [undefined]. *)
Definition prompt_result (h : Host) (msg : string) (items : list string)
  : option string :=
  match choose h msg with
  | Some n => items !! n
  | None => None
  end.

Definition showInformationMessage (h : Host) (msg : string) (items : list string)
  : M (option string) :=
  emit (ShowInformationMessage msg items) ;; ret (prompt_result h msg items).

Definition showWarningMessage (h : Host) (msg : string) (items : list string)
  : M (option string) :=
  emit (ShowWarningMessage msg items) ;; ret (prompt_result h msg items).

Definition showErrorMessage (msg : string) : M unit :=
  emit (ShowErrorMessage msg).

(** ** [statusbar.ts] *)

Module StatusBar.

(** Template-literal interpolation of a possibly missing argument. *)
Definition interpolate (s : option string) : string :=
  default "undefined" s.

Definition displayStatusBarItem (csprojName : option string)
  (contained : option bool) : M JsValue :=
  w <- get ;;
  match _statusBarItem w with
  | None => throw (TypeError "Cannot set property 'text' of undefined")
  | Some item =>
      let t := if default false contained
               then "Contained in " +:+ interpolate csprojName
               else "Add to " +:+ interpolate csprojName in
      modify (set_statusBar
                (Some {| text := t; tooltip := t; shown := true;
                         command := command item |}) true) ;;
      ret VUndefined
  end.

Definition hideStatusBarItem : M JsValue :=
  w <- get ;;
  match _statusBarItem w with
  | None => throw (TypeError "Cannot set property 'text' of undefined")
  | Some item =>
      modify (set_statusBar
                (Some {| text := EmptyString; tooltip := tooltip item; shown := false;
                         command := command item |}) false) ;;
      ret VUndefined
  end.

Definition createStatusBarItem : M JsValue :=
  w <- get ;;
  let item := {| text := EmptyString; tooltip := EmptyString; shown := false;
                 command := "extension.csproj.add" |} in
  match _statusBarItem w with
  | Some _ => modify (set_statusBar (Some item) false)
  | None => modify (set_statusBar (Some item) (_statusBarItemVisible w))
  end ;;
  ret VObject.

Definition visible : M JsValue :=
  w <- get ;; ret (VBool (_statusBarItemVisible w)).

(** The functions of the module, and the names it exports them under. *)
Inductive Function_ :=
| FDisplayStatusBarItem
| FHideStatusBarItem
| FCreateStatusBarItem
| FVisible.

Definition Namespace := list (string * Function_).

Definition exports : Namespace :=
  [ ("displayStatusBarItem", FDisplayStatusBarItem);
    ("hideStatusBarItem", FHideStatusBarItem);
    ("createStatusBarItem", FCreateStatusBarItem);
    ("visible", FVisible) ].

Fixpoint member (ns : Namespace) (key : string) : option Function_ :=
  match ns with
  | [] => None
  | (k, f) :: rest => if String.eqb k key then Some f else member rest key
  end.

Definition apply (f : Function_) (arg0 : option string) (arg1 : option bool)
  : M JsValue :=
  match f with
  | FDisplayStatusBarItem => displayStatusBarItem arg0 arg1
  | FHideStatusBarItem => hideStatusBarItem
  | FCreateStatusBarItem => createStatusBarItem
  | FVisible => visible
  end.

(** The call [StatusBar.key(arg0, arg1)] made through a namespace object:
    calling a member the namespace does not have throws. *)
Definition call (ns : Namespace) (key : string) (arg0 : option string)
  (arg1 : option bool) : M JsValue :=
  match member ns key with
  | Some f => apply f arg0 arg1
  | None => throw (TypeError ("StatusBar." +:+ key +:+ " is not a function"))
  end.

(** The members [extension.ts] calls. *)
Definition called_members : list string :=
  [ "hideItem"; "displayItem"; "createItem"; "isVisible" ].

End StatusBar.

(** ** [csproj.ts], the descriptor engine *)

Module CsprojUtil.

(** Modelled from the spec: [csproj.ts] is not among the sources.  ["true
    iff an entry exists whose relative path matches the normalized,
    case-appropriate relative form of filePath against the descriptor's
    directory"]. *)
Definition hasFile (h : Host) (c : Csproj) (file : string) (w : World) : bool :=
  existsb (fun e => String.eqb (include e) (relativeTo h c file))
    (default [] (trees w !! fsPath c)).

(** Modelled from the spec: [forFile] of [csproj.ts], the resolution of the
    governing descriptor, which fails with [NoCsprojError] when no
    descriptor is found in the ascent. *)
Definition forFile (h : Host) (file : string) : M Csproj :=
  emit (ForFile file) ;;
  match resolve h file with
  | inl err => throw err
  | inr c => ret c
  end.

(** Modelled from the spec: [addFile] of [csproj.ts]; ["if an entry for it
    already exists, operation is a no-op; otherwise inserts a new entry"]. *)
Definition addFile (h : Host) (c : Csproj) (file : string) (t : string)
  : M unit :=
  emit (AddFile c file t) ;;
  w <- get ;;
  if hasFile h c file w then ret tt
  else modify (set_trees (fun ts =>
         <[fsPath c := (default [] (ts !! fsPath c)
                        ++ [{| include := relativeTo h c file; tag := t |}])%list]> ts)).

(** Modelled from the spec: [removeFile] of [csproj.ts]; ["locates the
    entry by relative path and removes it; if absent, this is a tolerated
    no-op"].  A failure the host announces is thrown before the tree is
    touched. *)
Definition removeFile (h : Host) (c : Csproj) (file : string) : M unit :=
  emit (RemoveFile c file) ;;
  match removeFile_failure h c file with
  | Some err => throw err
  | None =>
      modify (set_trees (fun ts =>
        match ts !! fsPath c with
        | Some items =>
            <[fsPath c :=
                filter (fun e => include e ≠ relativeTo h c file) items]> ts
        | None => ts
        end))
  end.

(** Modelled from the spec: [persist] of [csproj.ts]; ["serializes the
    descriptor's in-memory tree back to text and overwrites its file"],
    with the I/O failure the host announces. *)
Definition persist (h : Host) (c : Csproj) : M unit :=
  match persist_failure h c with
  | Some err => emit (Persist c false) ;; throw err
  | None => emit (Persist c true)
  end.

(** Modelled from the spec: the process-wide suppression toggle of
    [csproj.ts]. *)
Definition disableInvalidation : M unit :=
  emit DisableInvalidation ;; modify (set_invalidationDisabled true).

(** Modelled from the spec: lifting the suppression toggle of
    [csproj.ts]. *)
Definition enableInvalidation : M unit :=
  emit EnableInvalidation ;; modify (set_invalidationDisabled false).

(** Modelled from the spec: [invalidateAll] of [csproj.ts], ["evict
    everything, used at shutdown"]; the cache itself is not part of the
    world. *)
Definition invalidateAll : M unit := emit InvalidateAll.

End CsprojUtil.

(** ** [extension.ts] *)

Definition YES : string := "Yes".
Definition NO : string := "Not Now".
Definition NEVER : string := "Never For This File".
Definition _debounceDeleteTime : Z := 2000.

(** [s.endsWith(suffix)] *)
Definition endsWith (s suffix : string) : bool :=
  let n := String.length s in
  let k := String.length suffix in
  (k <=? n)%nat && String.eqb (substring (n - k) k s) suffix.

(** [/(\/|\\)/.test(s)]: the string holds a slash or a backslash. *)
Definition has_separator (s : string) : bool :=
  existsb (fun c => Ascii.eqb c "/"%char || Ascii.eqb c (ascii_of_nat 92))
    (list_ascii_of_string s).

(** A text between double quotes. *)
Definition quoted (s : string) : string :=
  String (ascii_of_nat 34) (s +:+ String (ascii_of_nat 34) EmptyString).

(** [`${n}`] for an array length. *)
Definition number_to_string (n : nat) : string :=
  NilEmpty.string_of_uint (Nat.to_uint n).

Record ActionArgs := {
  target : CsprojAndFile;
  fileName : string
  (* [globalState] is the world's [ignorePaths] *)
}.

Inductive PickAction := PickYes | PickNo | PickNever.

(** [pickActions[key]]; an [undefined] key reads the property ["undefined"],
    which the object does not have. *)
Definition pickActions (key : option string) : option PickAction :=
  match key with
  | None => None
  | Some k =>
      if String.eqb k YES then Some PickYes
      else if String.eqb k NO then Some PickNo
      else if String.eqb k NEVER then Some PickNever
      else None
  end.

Definition singleDeleteMessage (c : Csproj) (file : string) : string :=
  let fileName := Path.basename file in
  fileName +:+ " was deleted. Remove it from " +:+ name c +:+ "?".

Definition multiDeleteMessage (filePaths : list string) : string :=
  number_to_string (length filePaths)
  +:+ " files were deleted. Remove them from csproj?".

Definition updateIgnoredPaths (addPath : string) : M unit :=
  w <- get ;;
  let list := (default [] (ignorePaths w) ++ [addPath])%list in
  emit (GlobalStateUpdate list) ;;
  modify (set_ignorePaths (Some list)).

Definition clearIgnoredPathsCommand : M unit :=
  emit (GlobalStateUpdate []) ;;
  modify (set_ignorePaths (Some [])).

Section Extension.

Variable h : Host.
Variable ns : StatusBar.Namespace.

Definition isDesiredFile (queryPath : string) : M bool :=
  w <- get ;;
  let ignored := default [] (ignorePaths w) in
  if existsb (String.eqb queryPath) ignored then ret false
  else
    included <-
      match includeRegex h with
      | Some re =>
          match regexp_test h re queryPath with
          | inl err => throw err
          | inr b => ret b
          end
      | None => ret true
      end ;;
    if negb included then ret false
    else
      match excludeRegex h with
      | Some re =>
          match regexp_test h re queryPath with
          | inl err => throw err
          | inr b => ret (negb b)
          end
      | None => ret true
      end.

Definition ignoreEvent (uri : string) : M bool :=
  desired <- isDesiredFile uri ;;
  if negb desired then ret true
  else
    v <- StatusBar.call ns "isVisible" None None ;;
    if value_truthy v then ret true else ret false.

Definition pickAction (a : PickAction) (args : ActionArgs) : M unit :=
  let c := csproj (target args) in
  match a with
  | PickYes =>
      CsprojUtil.addFile h c (filePath (target args))
        (getTypeForFile (fileName args) (itemType h)) ;;
      CsprojUtil.persist h c ;;
      StatusBar.call ns "displayItem" (Some (name c)) (Some true) ;;
      showInformationMessage h
        ("Added " +:+ fileName args +:+ " to " +:+ name c) [] ;;
      ret tt
  | PickNo =>
      StatusBar.call ns "displayItem" (Some (name c)) (Some false) ;;
      ret tt
  | PickNever =>
      updateIgnoredPaths (filePath (target args)) ;;
      StatusBar.call ns "hideItem" None None ;;
      showInformationMessage h
        ("Added " +:+ fileName args +:+ " to ignore list, to clear list, "
         +:+ "run the " +:+ quoted "csproj: Clear ignored paths") [] ;;
      ret tt
  end.

Definition csprojCommand (path : string) (prompt : bool) : M unit :=
  if String.eqb path EmptyString then ret tt
  else
    let fileName := Path.basename path in
    emit (ConsoleLog ("extension.csproj#trigger(" +:+ fileName +:+ ")")) ;;
    if endsWith path ".csproj" || negb (has_separator path) then ret tt
    else
      try_catch
        (c <- CsprojUtil.forFile h path ;;
         w <- get ;;
         if CsprojUtil.hasFile h c path w then
           StatusBar.call ns "displayItem" (Some (name c)) (Some true) ;;
           if negb prompt then
             showWarningMessage h
               (fileName +:+ " is already in " +:+ name c) [] ;;
             ret tt
           else ret tt
         else
           pickResult <-
             (if prompt then
                showInformationMessage h
                  (fileName +:+ " is not in " +:+ name c
                   +:+ ", would you like to add it?") [YES; NEVER]
              else ret (Some YES)) ;;
           pickAction (default PickNo (pickActions pickResult))
             {| target := {| csproj := c; filePath := path |};
                fileName := fileName |})
        (fun err =>
           if negb (instanceof_NoCsprojError err) then
             showErrorMessage (toString err) ;;
             emit (ConsoleTrace err)
           else
             emit (ConsoleLog ("extension.csproj#trigger(" +:+ fileName
                               +:+ "): no csproj found"))).

Definition csprojRemoveCommand (path : string) (provided : option Csproj)
  : M unit :=
  let csprojProvided := match provided with Some _ => true | None => false end in
  located <-
    match provided with
    | Some c => ret (Some c)
    | None =>
        try_catch
          (c <- CsprojUtil.forFile h path ;; ret (Some c))
          (fun err =>
             (if instanceof_NoCsprojError err then
                let fileName := Path.basename path in
                showErrorMessage
                  ("Unable to locate csproj for file: " +:+ fileName)
              else emit (ConsoleTrace err)) ;;
             ret None)
    end ;;
  match located with
  | None => ret tt
  | Some c =>
      try_catch
        (CsprojUtil.removeFile h c path ;;
         if negb csprojProvided then CsprojUtil.persist h c else ret tt)
        (fun err =>
           showErrorMessage (toString err) ;;
           emit (ConsoleTrace err))
  end.

(** [commands.executeCommand(name, ...)] runs the registered handler. *)
Definition executeCommand_add (uri : string) (prompt : bool) : M unit :=
  emit (ExecuteCommand "extension.csproj.add" uri) ;;
  csprojCommand uri prompt.

Definition executeCommand_remove (path : string) (c : Csproj) : M unit :=
  emit (ExecuteCommand "extension.csproj.remove" path) ;;
  csprojRemoveCommand path (Some c).

(** The listener given to [workspace.onDidSaveTextDocument]. *)
Definition onDidSaveTextDocument (uri : string) : M unit :=
  ignored <- ignoreEvent uri ;;
  if ignored then ret tt else executeCommand_add uri true.

(** The listener given to [window.onDidChangeActiveTextEditor]; [None] is
    the event without an editor. *)
Definition onDidChangeActiveTextEditor (e : option string) : M unit :=
  match e with
  | None => ret tt
  | Some uri =>
      StatusBar.call ns "hideItem" None None ;;
      ignored <- ignoreEvent uri ;;
      if ignored then ret tt else executeCommand_add uri true
  end.

(** The function handed to [debounce]: one flush of a batch. *)
Definition debouncedRemoveFromCsproj_func (removals : list CsprojAndFile)
  : M unit :=
  (* onCall(): _csprojRemovals = [] *)
  w <- get ;;
  modify (set_heap (heap w ++ [[]])%list (length (heap w))) ;;
  CsprojUtil.disableInvalidation ;;
  message <-
    (if (1 <? length removals)%nat
     then ret (multiDeleteMessage (map filePath removals))
     else match removals with
          | r :: _ => ret (singleDeleteMessage (csproj r) (filePath r))
          | [] => throw (TypeError
                           "Cannot read property 'csproj' of undefined")
          end) ;;
  doDelete <-
    (if silentDeletion h then ret true
     else
       answer <- showWarningMessage h message [YES] ;;
       ret (match answer with
            | Some a => String.eqb a YES
            | None => false
            end)) ;;
  (if doDelete : bool then
     for_of removals (fun r => executeCommand_remove (filePath r) (csproj r))
   else ret tt) ;;
  CsprojUtil.enableInvalidation.

(** A call of the debounced function: the arguments replace the ones kept
    and the timer restarts from the current time. *)
Definition debouncedRemoveFromCsproj (removals : nat) : M unit :=
  w <- get ;;
  modify (set_timer (Some (now w + _debounceDeleteTime, removals))).

Definition handleFileDeletion (path : string) : M unit :=
  try_catch
    (c <- CsprojUtil.forFile h path ;;
     w <- get ;;
     if negb (CsprojUtil.hasFile h c path w) then ret tt
     else
       let r := _csprojRemovals w in
       modify (set_heap
                 (alter (fun a => a ++ [{| csproj := c; filePath := path |}])%list
                    r (heap w)) r) ;;
       w' <- get ;;
       debouncedRemoveFromCsproj (_csprojRemovals w'))
    (fun err => emit (ConsoleTrace err)).

Definition activate : M unit :=
  if negb (enabled h) then ret tt
  else
    emit (ConsoleLog "extension.csproj#activate") ;;
    emit (RegisterCommand "extension.csproj.add") ;;
    emit (RegisterCommand "extension.csproj.remove") ;;
    emit (RegisterCommand "extension.csproj.clearIgnoredPaths") ;;
    emit (RegisterListener "onDidSaveTextDocument") ;;
    emit (RegisterListener "onDidChangeActiveTextEditor") ;;
    emit (RegisterListener "csprojWatcher.onDidChange") ;;
    emit (RegisterListener "deleteFileWatcher.onDidDelete") ;;
    StatusBar.call ns "createItem" None None ;;
    ret tt.

Definition deactivate : M unit :=
  emit (ConsoleLog "extension.csproj#deactivate") ;;
  CsprojUtil.invalidateAll ;;
  StatusBar.call ns "hideItem" None None ;;
  ret tt.

(** *** The event loop around the debounced function

    Deletion notifications carry the time at which [handleFileDeletion]
    reaches the debounced call.  The timer callback runs before a
    notification whose time is not earlier than the deadline.  Here the
    callback takes the flush to its end before the next event; [run_loop],
    further down, lets the flushes in flight take turns with the other
    events. *)

Definition timerExpired : M unit :=
  w <- get ;;
  match timer w with
  | Some (deadline, args) =>
      if deadline <=? now w then
        modify (set_timer None) ;;
        try_catch
          (debouncedRemoveFromCsproj_func (default [] (heap w !! args)))
          (fun err => emit (UnhandledRejection err))
      else ret tt
  | None => ret tt
  end.

Fixpoint deliver (notifications : list (Z * string)) : M unit :=
  match notifications with
  | [] => ret tt
  | (t, path) :: rest =>
      modify (set_now t) ;;
      timerExpired ;;
      handleFileDeletion path ;;
      deliver rest
  end.

(** After the last notification the clock runs on until the pending timer,
    if any, has expired. *)
Definition settle : M unit :=
  w <- get ;;
  match timer w with
  | Some (deadline, _) =>
      modify (set_now (Z.max (now w) deadline)) ;; timerExpired
  | None => ret tt
  end.

Definition timeline (notifications : list (Z * string)) : M unit :=
  deliver notifications ;; settle.

End Extension.

Arguments debouncedRemoveFromCsproj_func : simpl never.
Arguments handleFileDeletion : simpl never.
Arguments timerExpired : simpl never.

(** ** Reading traces *)

Definition is_mutation (e : Effect) : bool :=
  match e with
  | AddFile _ _ _ | RemoveFile _ _ | Persist _ _ | GlobalStateUpdate _ => true
  | _ => false
  end.

Definition is_persist (e : Effect) : bool :=
  match e with
  | Persist _ _ => true
  | _ => false
  end.

Definition is_prompt (e : Effect) : bool :=
  match e with
  | ShowInformationMessage _ _ | ShowWarningMessage _ _ => true
  | _ => false
  end.

Definition is_confirmation (e : Effect) : bool :=
  match e with
  | ShowWarningMessage _ _ => true
  | _ => false
  end.

Definition is_error_message (e : Effect) : bool :=
  match e with
  | ShowErrorMessage _ => true
  | _ => false
  end.

Definition is_add_invocation (e : Effect) : bool :=
  match e with
  | ExecuteCommand c _ => String.eqb c "extension.csproj.add"
  | _ => false
  end.

(** Every run of the debounced function makes exactly one call of
    [disableInvalidation], its first call; nothing else calls it. *)
Definition is_flush (e : Effect) : bool :=
  match e with
  | DisableInvalidation => true
  | _ => false
  end.

Definition count (p : Effect -> bool) (es : list Effect) : nat :=
  length (filter (fun e => p e = true) es).

(** A trace is bracketed when every descriptor mutation and every persist
    happens while invalidation is suppressed, and suppression is off at the
    end. *)
Fixpoint bracketed (suppressed : bool) (es : list Effect) : bool :=
  match es with
  | [] => negb suppressed
  | DisableInvalidation :: rest => bracketed true rest
  | EnableInvalidation :: rest => bracketed false rest
  | e :: rest =>
      (if is_mutation e then suppressed else true) && bracketed suppressed rest
  end.

(** What one [extension.csproj.remove] issued by a flush leaves in the
    trace. *)
Definition removal_trace (h : Host) (r : CsprojAndFile) : list Effect :=
  ExecuteCommand "extension.csproj.remove" (filePath r)
  :: RemoveFile (csproj r) (filePath r)
  :: match removeFile_failure h (csproj r) (filePath r) with
     | Some err => [ShowErrorMessage (toString err); ConsoleTrace err]
     | None => []
     end.

(** The confirmation message of a batch. *)
Definition batch_message (removals : list CsprojAndFile) : string :=
  match removals with
  | [r] => singleDeleteMessage (csproj r) (filePath r)
  | _ => multiDeleteMessage (map filePath removals)
  end.

(** A notification is tracked when its file resolves to a descriptor that
    lists it. *)
Definition tracked (h : Host) (w : World) (path : string) : bool :=
  match resolve h path with
  | inr c => CsprojUtil.hasFile h c path w
  | inl _ => false
  end.

(** Consecutive notifications are in order and less than the quiet window
    apart. *)
Fixpoint within_window (notifications : list (Z * string)) : Prop :=
  match notifications with
  | (t, _) :: ((t', _) :: _) as rest =>
      t <= t' < t + _debounceDeleteTime /\ within_window rest
  | _ => True
  end.

(** The tree store after [removeFile] has run for one pair, and for a whole
    batch in order. *)
Definition remove_entry (h : Host) (r : CsprojAndFile)
  (ts : gmap string (list ItemEntry)) : gmap string (list ItemEntry) :=
  match removeFile_failure h (csproj r) (filePath r) with
  | Some _ => ts
  | None =>
      match ts !! fsPath (csproj r) with
      | Some items =>
          <[fsPath (csproj r) :=
              filter (fun e => include e ≠ relativeTo h (csproj r) (filePath r))
                items]> ts
      | None => ts
      end
  end.

Definition remove_all (h : Host) (removals : list CsprojAndFile)
  (ts : gmap string (list ItemEntry)) : gmap string (list ItemEntry) :=
  fold_left (fun acc r => remove_entry h r acc) removals ts.

(** Whether a flush of the batch goes on to remove: the silent flag is set,
    or the confirmation is answered with [YES]. *)
Definition flush_confirmed (h : Host) (removals : list CsprojAndFile) : bool :=
  silentDeletion h
  || match prompt_result h (batch_message removals) [YES] with
     | Some a => String.eqb a YES
     | None => false
     end.

(** The pairs queued by a run of notifications that all resolve. *)
Definition batch (h : Host) (notifications : list (Z * string))
  : list CsprojAndFile :=
  omap (fun e => match resolve h (snd e) with
                 | inr c => Some {| csproj := c; filePath := snd e |}
                 | inl _ => None
                 end) notifications.

(** The batcher's state is consistent when invalidation is not suppressed,
    [_csprojRemovals] refers to an array of the heap, and a pending timer
    keeps a reference to a non-empty array. *)
Definition batcher_consistent (w : World) : Prop :=
  invalidationDisabled w = false
  /\ (_csprojRemovals w < length (heap w))%nat
  /\ forall deadline args, timer w = Some (deadline, args) ->
       exists l, heap w !! args = Some l /\ l <> [].

(** ** A small workspace to run the extension on *)

Module Demo.

Definition App : Csproj :=
  {| fsPath := "/ws/App.csproj"; name := "App.csproj" |}.

Definition trees : gmap string (list ItemEntry) :=
  {[ "/ws/App.csproj" :=
       [ {| include := "a.cs"; tag := "Compile" |};
         {| include := "b.cs"; tag := "Compile" |};
         {| include := "c.cs"; tag := "Compile" |} ] ]}.

(** Files under [/ws/] are governed by [App.csproj]; every prompt is
    answered with its first item. *)
Definition host : Host :=
  {| resolve := fun p =>
       if String.prefix "/ws/" p then inr App
       else inl (NoCsprojError "no csproj found");
     relativeTo := fun _ p => substring 4 (String.length p - 4) p;
     removeFile_failure := fun _ _ => None;
     persist_failure := fun _ => None;
     choose := fun _ => Some 0%nat;
     enabled := true;
     silentDeletion := false;
     itemType := default_itemType;
     includeRegex := None;
     excludeRegex := None;
     regexp_test := fun _ _ => inr true |}.

(** The same workspace with another user and another configuration. *)
Definition host_with (pick : option nat) (silent : bool) : Host :=
  {| resolve := resolve host;
     relativeTo := relativeTo host;
     removeFile_failure := removeFile_failure host;
     persist_failure := persist_failure host;
     choose := fun _ => pick;
     enabled := true;
     silentDeletion := silent;
     itemType := default_itemType;
     includeRegex := None;
     excludeRegex := None;
     regexp_test := regexp_test host |}.

Definition world : World := init trees None.

End Demo.

(** ** Further readings of worlds and traces *)

(** One call of a function of [statusbar.ts], with its arguments. *)
Record StatusBarCall := {
  callee : StatusBar.Function_;
  arg_csprojName : option string;
  arg_contained : option bool
}.

(** A sequence of such calls; a call that throws leaves the module's state
    as it found it, and the next call goes on from there. *)
Fixpoint statusbar_session (calls : list StatusBarCall) (w : World) : World :=
  match calls with
  | [] => w
  | c :: rest =>
      statusbar_session rest
        (world (StatusBar.apply (callee c) (arg_csprojName c)
                  (arg_contained c) w))
  end.

(** The visibility flag agrees with the item: an item is flagged visible
    exactly when it is shown, nothing is flagged visible without an item,
    and the item's command is the add command. *)
Definition statusbar_coherent (w : World) : Prop :=
  match _statusBarItem w with
  | Some item =>
      shown item = _statusBarItemVisible w
      /\ command item = "extension.csproj.add"
  | None => _statusBarItemVisible w = false
  end.

(** The paths of the [extension.csproj.remove] invocations of a trace, and
    the [removeFile] calls of a trace, in order. *)
Definition remove_invocations (es : list Effect) : list string :=
  omap (fun e => match e with
                 | ExecuteCommand c p =>
                     if String.eqb c "extension.csproj.remove"
                     then Some p else None
                 | _ => None
                 end) es.

Definition removeFile_calls (es : list Effect) : list CsprojAndFile :=
  omap (fun e => match e with
                 | RemoveFile c p => Some {| csproj := c; filePath := p |}
                 | _ => None
                 end) es.

Definition is_information_prompt (e : Effect) : bool :=
  match e with
  | ShowInformationMessage _ _ => true
  | _ => false
  end.

(** Nothing is queued: no timer is pending and the array [_csprojRemovals]
    refers to is empty; or a timer is pending on that very array, which is
    not empty. *)
Definition batcher_settled (w : World) : Prop :=
  (_csprojRemovals w < length (heap w))%nat
  /\ match timer w with
     | None => heap w !! _csprojRemovals w = Some []
     | Some (_, args) =>
         args = _csprojRemovals w
         /\ exists l, heap w !! args = Some l /\ l <> []
     end.

(** What the include and exclude patterns of the configuration say about a
    path; a [null] pattern admits every path and excludes none. *)
Definition include_admits (h : Host) (uri : string) : Prop :=
  match includeRegex h with
  | None => True
  | Some re => regexp_test h re uri = inr true
  end.

Definition exclude_passes (h : Host) (uri : string) : Prop :=
  match excludeRegex h with
  | None => True
  | Some re => regexp_test h re uri = inr false
  end.

(** ** More workspaces to run the extension on *)

Module Scenario.

(** A workspace whose descriptors cannot be read. *)
Definition unreadable_host : Host :=
  {| resolve := fun _ => inl (OtherError "EACCES: permission denied");
     relativeTo := relativeTo Demo.host;
     removeFile_failure := fun _ _ => None;
     persist_failure := fun _ => None;
     choose := fun _ => Some 0%nat;
     enabled := true;
     silentDeletion := false;
     itemType := default_itemType;
     includeRegex := None;
     excludeRegex := None;
     regexp_test := fun _ _ => inr true |}.

(** The demo workspace with include and exclude patterns; a pattern is
    taken to match the paths that end with it, and the pattern ["("] is
    malformed. *)
Definition filtering_host (include exclude : option string) : Host :=
  {| resolve := resolve Demo.host;
     relativeTo := relativeTo Demo.host;
     removeFile_failure := fun _ _ => None;
     persist_failure := fun _ => None;
     choose := fun _ => Some 0%nat;
     enabled := true;
     silentDeletion := false;
     itemType := default_itemType;
     includeRegex := include;
     excludeRegex := exclude;
     regexp_test := fun re s =>
       if String.eqb re "("
       then inl (OtherError "Invalid regular expression")
       else inr (endsWith s re) |}.

(** The demo workspace where [removeFile] fails for [b.cs], with silent
    deletion. *)
Definition failing_remove_host : Host :=
  {| resolve := resolve Demo.host;
     relativeTo := relativeTo Demo.host;
     removeFile_failure := fun _ p =>
       if String.eqb p "/ws/b.cs" then Some (OtherError "not found") else None;
     persist_failure := fun _ => None;
     choose := fun _ => Some 0%nat;
     enabled := true;
     silentDeletion := true;
     itemType := default_itemType;
     includeRegex := None;
     excludeRegex := None;
     regexp_test := fun _ _ => inr true |}.

(** The demo workspace, disabled by configuration. *)
Definition disabled_host : Host :=
  {| resolve := resolve Demo.host;
     relativeTo := relativeTo Demo.host;
     removeFile_failure := fun _ _ => None;
     persist_failure := fun _ => None;
     choose := fun _ => Some 0%nat;
     enabled := false;
     silentDeletion := false;
     itemType := default_itemType;
     includeRegex := None;
     excludeRegex := None;
     regexp_test := fun _ _ => inr true |}.

(** A namespace in which the four members [extension.ts] calls are bound to
    the four functions of [statusbar.ts]. *)
Definition bound : StatusBar.Namespace :=
  [ ("hideItem", StatusBar.FHideStatusBarItem);
    ("displayItem", StatusBar.FDisplayStatusBarItem);
    ("createItem", StatusBar.FCreateStatusBarItem);
    ("isVisible", StatusBar.FVisible) ].

End Scenario.

(** ** The command handlers as the registry calls them *)

(** The first parameter of both handlers defaults to
    [window.activeTextEditor.document.uri].  The default is evaluated when
    the handler is entered, before its body and outside its [try] blocks,
    and throws when no editor is active. *)
Definition default_uri (activeTextEditor : option string)
  (arg : option string) : M string :=
  match arg with
  | Some path => ret path
  | None =>
      match activeTextEditor with
      | Some path => ret path
      | None => throw (TypeError "Cannot read property 'document' of undefined")
      end
  end.

Definition csprojCommand_handler (h : Host) (ns : StatusBar.Namespace)
  (activeTextEditor : option string) (arg : option string) (prompt : bool)
  : M unit :=
  path <- default_uri activeTextEditor arg ;;
  csprojCommand h ns path prompt.

Definition csprojRemoveCommand_handler (h : Host)
  (activeTextEditor : option string) (arg : option string)
  (provided : option Csproj) : M unit :=
  path <- default_uri activeTextEditor arg ;;
  csprojRemoveCommand h path provided.

(** ** The flush as the event loop runs it

    [debouncedRemoveFromCsproj_func] is the flush run without interruption.
    The function it embeds is asynchronous: it is suspended at [await
    window.showWarningMessage] and at each [await commands.executeCommand],
    and the debounced wrapper does not wait for it, so that the timer can
    start another flush while one is suspended.  Below, a flush is cut at
    its awaits and the event loop takes turns. *)

(** A flush in flight: waiting for the answer to its confirmation, or
    waiting for a remove command it has issued, with the pairs still to
    come. *)
Inductive Suspended :=
| AwaitingAnswer (removals : list CsprojAndFile) (message : string)
| AwaitingCommand (rest : list CsprojAndFile).




Record Loop := {
  loop_world : World;
  in_flight : list Suspended;
  loop_trace : list Effect
}.

Inductive Turn :=
| Notify (t : Z) (path : string)
| Elapse (t : Z)
| Resume (i : nat).

Section EventLoop.

Variable h : Host.

(** The [for] loop of the flush at its next pair: the remove command is
    issued, it runs up to its end, and the flush waits for it; past the
    last pair invalidation is restored and the flush is over. *)
Definition next_removal (rest : list CsprojAndFile) : M (option Suspended) :=
  match rest with
  | r :: rest' =>
      executeCommand_remove h (filePath r) (csproj r) ;;
      ret (Some (AwaitingCommand rest'))
  | [] =>
      CsprojUtil.enableInvalidation ;;
      ret None
  end.

(** The flush from its first line to its first await. *)
Definition flush_start (removals : list CsprojAndFile)
  : M (option Suspended) :=
  w <- get ;;
  modify (set_heap (heap w ++ [[]])%list (length (heap w))) ;;
  CsprojUtil.disableInvalidation ;;
  message <-
    (if (1 <? length removals)%nat
     then ret (multiDeleteMessage (map filePath removals))
     else match removals with
          | r :: _ => ret (singleDeleteMessage (csproj r) (filePath r))
          | [] => throw (TypeError
                           "Cannot read property 'csproj' of undefined")
          end) ;;
  if silentDeletion h then next_removal removals
  else
    emit (ShowWarningMessage message [YES]) ;;
    ret (Some (AwaitingAnswer removals message)).

(** The flush from one await to the next. *)
Definition resume (f : Suspended) : M (option Suspended) :=
  match f with
  | AwaitingAnswer removals message =>
      let doDelete :=
        match prompt_result h message [YES] with
        | Some a => String.eqb a YES
        | None => false
        end in
      if doDelete then next_removal removals
      else CsprojUtil.enableInvalidation ;; ret None
  | AwaitingCommand rest => next_removal rest
  end.

Definition with_now (t : Z) (s : Loop) : Loop :=
  {| loop_world := set_now t (loop_world s); in_flight := in_flight s;
     loop_trace := loop_trace s |}.

Definition rejection {A : Type} (r : Run A) : list Effect :=
  match outcome r with
  | Thrown err => [UnhandledRejection err]
  | Returned _ => []
  end.

(** The timer callback: if the deadline has passed, a flush is started on
    the arguments kept by the debounced function. *)
Definition timer_turn (s : Loop) : Loop :=
  let w := loop_world s in
  match timer w with
  | Some (deadline, args) =>
      if deadline <=? now w then
        let r := flush_start (default [] (heap w !! args)) (set_timer None w) in
        {| loop_world := world r;
           in_flight :=
             match outcome r with
             | Returned (Some f) => (in_flight s ++ [f])%list
             | _ => in_flight s
             end;
           loop_trace := (loop_trace s ++ effects r ++ rejection r)%list |}
      else s
  | None => s
  end.

(** The [i]-th flush in flight goes on to its next await, or to its end. *)
Definition resume_turn (i : nat) (s : Loop) : Loop :=
  match in_flight s !! i with
  | None => s
  | Some f =>
      let r := resume f (loop_world s) in
      {| loop_world := world r;
         in_flight :=
           match outcome r with
           | Returned (Some f') => <[i := f']> (in_flight s)
           | _ => delete i (in_flight s)
           end;
         loop_trace := (loop_trace s ++ effects r ++ rejection r)%list |}
  end.

(** One turn of the event loop: a deletion notification handled at time
    [t] (after the timer callback, if it is due), the clock reaching [t],
    or a suspended flush being resumed. *)
Definition turn (x : Turn) (s : Loop) : Loop :=
  match x with
  | Notify t path =>
      let s1 := timer_turn (with_now t s) in
      let r := handleFileDeletion h path (loop_world s1) in
      {| loop_world := world r; in_flight := in_flight s1;
         loop_trace := (loop_trace s1 ++ effects r)%list |}
  | Elapse t => timer_turn (with_now t s)
  | Resume i => resume_turn i s
  end.

Fixpoint run_loop (turns : list Turn) (s : Loop) : Loop :=
  match turns with
  | [] => s
  | x :: rest => run_loop rest (turn x s)
  end.

End EventLoop.

Definition boot (ts : gmap string (list ItemEntry))
  (ignored : option (list string)) : Loop :=
  {| loop_world := init ts ignored; in_flight := []; loop_trace := [] |}.


(** * Properties *)


(** ** Node's [path] functions on a few names *)

Example extname_ts : Path.extname "a.ts" = ".ts".
Proof. reflexivity. Qed.

Example extname_png : Path.extname "a.png" = ".png".
Proof. reflexivity. Qed.

Example extname_hidden : Path.extname ".bashrc" = EmptyString.
Proof. reflexivity. Qed.

Example extname_dotdot : Path.extname ".." = EmptyString.
Proof. reflexivity. Qed.

Example extname_trailing_slash : Path.extname "a/b.tar.gz/" = ".gz".
Proof. reflexivity. Qed.

Example extname_dotted_directory : Path.extname "a.b/c" = EmptyString.
Proof. reflexivity. Qed.

Example basename_plain : Path.basename "/src/app/foo.ts" = "foo.ts".
Proof. reflexivity. Qed.

Example basename_trailing_slashes : Path.basename "/src/app//" = "app".
Proof. reflexivity. Qed.

Example basename_bare : Path.basename "foo.ts" = "foo.ts".
Proof. reflexivity. Qed.

(** ** Item-type resolution *)

Lemma truthy_Some (t : string) : t <> EmptyString -> truthy (Some t) = true.
Proof.
  intros Hne. unfold truthy.
  destruct (String.eqb_spec t EmptyString); [contradiction | reflexivity].
Qed.

Lemma no_empty_tag_lookup (tags : gmap string string) (k t : string) :
  no_empty_tag (ByExtension tags) = true ->
  tags !! k = Some t -> t <> EmptyString.
Proof.
  unfold no_empty_tag. rewrite forallb_forall. intros Hall Hk ->.
  apply elem_of_map_to_list in Hk. apply list_elem_of_In in Hk.
  specialize (Hall _ Hk). discriminate Hall.
Qed.

(** An empty tag is passed over, as a missing one is. *)
Lemma getTypeForFile_empty_tag (fileName : string) (tags : gmap string string) :
  tags !! Path.extname fileName = Some EmptyString ->
  getTypeForFile fileName (ByExtension tags)
  = default "Content" (js_or (tags !! "*") (Some "Content")).
Proof. intros Hk. unfold getTypeForFile. rewrite Hk. reflexivity. Qed.

(** C3, as the claim words it, fails: under the map [{'.ts': ''}] the file
    [a.ts] has its extension mapped, to the empty tag, and the code answers
    ['Content'], not that tag. *)
Lemma getTypeForFile_empty_tag_counterexample :
  let rule := ByExtension {[ ".ts" := EmptyString ]} in
  resolution_as_specified "a.ts" rule = EmptyString
  /\ getTypeForFile "a.ts" rule = "Content"
  /\ getTypeForFile "a.ts" rule <> resolution_as_specified "a.ts" rule.
Proof. vm_compute. repeat split; discriminate. Qed.

(** C3 (amended): for every file name and every ItemTypeRule that maps no
    extension to the empty string, a uniform tag is the result; an extension
    map gives the tag mapped to the file's extension, else the tag mapped to
    ['*'], else ['Content'].  Under [{'*': 'Content', '.ts':
    'TypeScriptCompile'}], [a.ts] resolves to [TypeScriptCompile] and [a.png]
    to [Content]. *)
Theorem getTypeForFile_resolution (fileName : string) (rule : ItemType) :
  no_empty_tag rule = true ->
  getTypeForFile fileName rule = resolution_as_specified fileName rule
  /\ getTypeForFile "a.ts" default_itemType = "TypeScriptCompile"
  /\ getTypeForFile "a.png" default_itemType = "Content".
Proof.
  intros Hne. split; [|split; vm_compute; reflexivity].
  destruct rule as [t|tags]; [reflexivity|].
  unfold getTypeForFile, resolution_as_specified, js_or.
  destruct (tags !! Path.extname fileName) as [t|] eqn:Hext.
  - assert (truthy (Some t) = true) as Ht
      by eauto using truthy_Some, no_empty_tag_lookup.
    rewrite Ht. cbv iota. rewrite Ht. reflexivity.
  - cbn [truthy]. destruct (tags !! "*") as [t|] eqn:Hstar; [|reflexivity].
    assert (truthy (Some t) = true) as Ht
      by eauto using truthy_Some, no_empty_tag_lookup.
    cbv iota. rewrite Ht. reflexivity.
Qed.

Lemma getTypeForFile_resolution_witness :
  no_empty_tag default_itemType = true
  /\ getTypeForFile "main.ts" default_itemType
     = resolution_as_specified "main.ts" default_itemType.
Proof.
  split; [vm_compute; reflexivity|].
  apply (getTypeForFile_resolution "main.ts" default_itemType).
  vm_compute; reflexivity.
Defined.

(** ** The status bar *)

(** C10: none of the four members [extension.ts] calls on the [StatusBar]
    namespace is exported by [statusbar.ts], and activation, which calls
    [StatusBar.createItem()], throws after the commands and listeners are
    registered. *)
Theorem statusbar_members_unresolved :
  Forall (fun key => StatusBar.member StatusBar.exports key = None)
    StatusBar.called_members
  /\ (forall key arg0 arg1 w,
        In key StatusBar.called_members ->
        outcome (StatusBar.call StatusBar.exports key arg0 arg1 w)
        = Thrown (TypeError ("StatusBar." +:+ key +:+ " is not a function")))
  /\ outcome (activate Demo.host StatusBar.exports Demo.world)
     = Thrown (TypeError "StatusBar.createItem is not a function").
Proof.
  split; [repeat constructor | split; [|vm_compute; reflexivity]].
  intros key arg0 arg1 w Hkey. cbn in Hkey.
  destruct Hkey as [<-|[<-|[<-|[<-|[]]]]]; reflexivity.
Qed.

(** With the module as it is, the add command reports the failed status-bar
    call to the user after the file has been added and persisted. *)
Example add_surfaces_statusbar_failure :
  effects (csprojCommand Demo.host StatusBar.exports "/ws/new.ts" true
             Demo.world)
  = [ConsoleLog "extension.csproj#trigger(new.ts)";
     ForFile "/ws/new.ts";
     ShowInformationMessage
       "new.ts is not in App.csproj, would you like to add it?"
       ["Yes"; "Never For This File"];
     AddFile Demo.App "/ws/new.ts" "TypeScriptCompile";
     Persist Demo.App true;
     ShowErrorMessage "TypeError: StatusBar.displayItem is not a function";
     ConsoleTrace (TypeError "StatusBar.displayItem is not a function")].
Proof. vm_compute. reflexivity. Qed.

(** ** The add command *)

(** C9: for a path that ends in [.csproj] or holds no separator the add
    command returns at once: the world is unchanged and nothing but the
    console line is emitted (no resolution, no prompt, no mutation, no
    persist). *)
Theorem csprojCommand_skips (h : Host) (ns : StatusBar.Namespace)
  (path : string) (prompt : bool) (w : World) :
  endsWith path ".csproj" = true \/ has_separator path = false ->
  let r := csprojCommand h ns path prompt w in
  outcome r = Returned tt
  /\ world r = w
  /\ effects r =
       if String.eqb path EmptyString then []
       else [ConsoleLog ("extension.csproj#trigger(" +:+ Path.basename path
                         +:+ ")")].
Proof.
  intros Hskip. unfold csprojCommand.
  destruct (String.eqb path EmptyString); [by cbn|].
  assert (endsWith path ".csproj" || negb (has_separator path) = true) as ->.
  { destruct Hskip as [-> | ->]; [reflexivity | apply orb_true_r]. }
  by cbn.
Qed.

Lemma csprojCommand_skips_witness :
  (endsWith "/ws/App.csproj" ".csproj" = true
   \/ has_separator "/ws/App.csproj" = false)
  /\ world (csprojCommand Demo.host StatusBar.exports "/ws/App.csproj" true
              Demo.world) = Demo.world
  /\ world (csprojCommand Demo.host StatusBar.exports "notes.txt" true
              Demo.world) = Demo.world.
Proof.
  split; [left; vm_compute; reflexivity|].
  split.
  - apply (csprojCommand_skips Demo.host StatusBar.exports "/ws/App.csproj"
             true Demo.world).
    left; vm_compute; reflexivity.
  - apply (csprojCommand_skips Demo.host StatusBar.exports "notes.txt"
             true Demo.world).
    right; vm_compute; reflexivity.
Defined.

(** ** Stepping through the monad *)

Ltac step :=
  unfold bind, ret, emit, get, modify, throw, try_catch,
    showErrorMessage, showWarningMessage, showInformationMessage; cbn.

(** A status-bar call, resolved or not, emits nothing and touches only the
    status-bar fields of the world. *)
Lemma statusbar_call_frame (ns : StatusBar.Namespace) (key : string)
  (a0 : option string) (a1 : option bool) (w : World) :
  let r := StatusBar.call ns key a0 a1 w in
  effects r = []
  /\ trees (world r) = trees w
  /\ ignorePaths (world r) = ignorePaths w
  /\ invalidationDisabled (world r) = invalidationDisabled w.
Proof.
  unfold StatusBar.call. destruct (StatusBar.member ns key) as [f|]; [|by cbn].
  destruct f; unfold StatusBar.apply, StatusBar.displayStatusBarItem,
    StatusBar.hideStatusBarItem, StatusBar.createStatusBarItem,
    StatusBar.visible; step; destruct (_statusBarItem w); by cbn.
Qed.

Lemma existsb_eqb_In (x : string) (l : list string) :
  In x l -> existsb (String.eqb x) l = true.
Proof.
  intros Hin. apply existsb_exists. exists x. split; [done|].
  apply String.eqb_refl.
Qed.

(** ** The ignore list *)

Lemma isDesiredFile_ignored (h : Host) (path : string) (w : World) :
  In path (default [] (ignorePaths w)) ->
  isDesiredFile h path w
  = {| outcome := Returned false; world := w; effects := [] |}.
Proof.
  intros Hin. unfold isDesiredFile. step.
  rewrite (existsb_eqb_In _ _ Hin). reflexivity.
Qed.

Lemma ignoreEvent_ignored (h : Host) (ns : StatusBar.Namespace)
  (path : string) (w : World) :
  In path (default [] (ignorePaths w)) ->
  ignoreEvent h ns path w
  = {| outcome := Returned true; world := w; effects := [] |}.
Proof.
  intros Hin. unfold ignoreEvent, bind.
  rewrite (isDesiredFile_ignored h path w Hin). reflexivity.
Qed.

(** "Never For This File" puts the path on the list, whatever the status
    bar does afterwards. *)
Lemma pickNever_ignores (h : Host) (ns : StatusBar.Namespace)
  (args : ActionArgs) (w : World) :
  In (filePath (target args))
    (default [] (ignorePaths (world (pickAction h ns PickNever args w)))).
Proof.
  unfold pickAction, updateIgnoredPaths. step.
  match goal with
  | |- context [StatusBar.call ns ?k ?a ?b ?w0] =>
      pose proof (statusbar_call_frame ns k a b w0) as (_ & _ & Hig & _);
      destruct (StatusBar.call ns k a b w0) as [[v|e] w1 es]
  end; cbn in *; rewrite Hig; cbn; apply in_or_app; right; by left.
Qed.

Lemma onDidSaveTextDocument_ignored (h : Host) (ns : StatusBar.Namespace)
  (uri : string) (w : World) :
  In uri (default [] (ignorePaths w)) ->
  onDidSaveTextDocument h ns uri w
  = {| outcome := Returned tt; world := w; effects := [] |}.
Proof.
  intros Hin. unfold onDidSaveTextDocument, bind.
  rewrite (ignoreEvent_ignored h ns uri w Hin). reflexivity.
Qed.

Lemma onDidChangeActiveTextEditor_ignored (h : Host)
  (ns : StatusBar.Namespace) (uri : string) (w : World) :
  In uri (default [] (ignorePaths w)) ->
  effects (onDidChangeActiveTextEditor h ns (Some uri) w) = []
  /\ ignorePaths (world (onDidChangeActiveTextEditor h ns (Some uri) w))
     = ignorePaths w.
Proof.
  intros Hin. unfold onDidChangeActiveTextEditor, bind.
  pose proof (statusbar_call_frame ns "hideItem" None None w)
    as (He & _ & Hig & _).
  destruct (StatusBar.call ns "hideItem" None None w) as [[v|e] w1 es];
    cbn in He, Hig |- *; [|by split].
  rewrite (ignoreEvent_ignored h ns uri w1) by (by rewrite Hig).
  cbn. rewrite He. by split.
Qed.

(** C8: for a file-save or active-editor-change event whose path is on the
    ignore list, the add command is not invoked: the listener emits nothing
    at all, and leaves the list as it was. *)
Theorem ignored_path_never_added (h : Host) (ns : StatusBar.Namespace)
  (uri : string) (w : World) :
  In uri (default [] (ignorePaths w)) ->
  let saved := onDidSaveTextDocument h ns uri w in
  let switched := onDidChangeActiveTextEditor h ns (Some uri) w in
  count is_add_invocation (effects saved) = 0%nat
  /\ count is_add_invocation (effects switched) = 0%nat
  /\ effects saved = [] /\ world saved = w
  /\ effects switched = []
  /\ ignorePaths (world switched) = ignorePaths w.
Proof.
  intros Hin. cbv zeta.
  destruct (onDidChangeActiveTextEditor_ignored h ns uri w Hin) as [Hc Hi].
  rewrite (onDidSaveTextDocument_ignored h ns uri w Hin), Hc, Hi.
  by repeat split.
Qed.

Lemma ignored_path_never_added_witness :
  In "/ws/new.ts" (default [] (ignorePaths (init Demo.trees (Some ["/ws/new.ts"]))))
  /\ count is_add_invocation
       (effects (onDidSaveTextDocument Demo.host StatusBar.exports "/ws/new.ts"
                   (init Demo.trees (Some ["/ws/new.ts"])))) = 0%nat.
Proof.
  split; [by left|].
  apply (ignored_path_never_added Demo.host StatusBar.exports "/ws/new.ts"
           (init Demo.trees (Some ["/ws/new.ts"]))).
  by left.
Defined.

(** ** Failures at the command boundary *)

Ltac statusbar_cases :=
  match goal with
  | |- context [StatusBar.call ?ns ?k ?a ?b ?w0] =>
      let Hef := fresh "Hef" in
      let Htr := fresh "Htr" in
      let Hig := fresh "Hig" in
      let Hinv := fresh "Hinv" in
      pose proof (statusbar_call_frame ns k a b w0) as (Hef & Htr & Hig & Hinv);
      destruct (StatusBar.call ns k a b w0) as [[?|?] ? ?];
      cbn in Hef, Htr, Hig, Hinv |- *; subst
  end.

Lemma csprojCommand_guarded (h : Host) (ns : StatusBar.Namespace)
  (path : string) (prompt : bool) :
  path <> EmptyString ->
  endsWith path ".csproj" = false ->
  has_separator path = true ->
  csprojCommand h ns path prompt
  = (emit (ConsoleLog ("extension.csproj#trigger(" +:+ Path.basename path
                       +:+ ")")) ;;
     try_catch
       (c <- CsprojUtil.forFile h path ;;
        w <- get ;;
        if CsprojUtil.hasFile h c path w then
          StatusBar.call ns "displayItem" (Some (name c)) (Some true) ;;
          if negb prompt then
            showWarningMessage h
              (Path.basename path +:+ " is already in " +:+ name c) [] ;;
            ret tt
          else ret tt
        else
          pickResult <-
            (if prompt then
               showInformationMessage h
                 (Path.basename path +:+ " is not in " +:+ name c
                  +:+ ", would you like to add it?") [YES; NEVER]
             else ret (Some YES)) ;;
          pickAction h ns (default PickNo (pickActions pickResult))
            {| target := {| csproj := c; filePath := path |};
               fileName := Path.basename path |})
       (fun err =>
          if negb (instanceof_NoCsprojError err) then
            showErrorMessage (toString err) ;;
            emit (ConsoleTrace err)
          else
            emit (ConsoleLog ("extension.csproj#trigger("
                              +:+ Path.basename path
                              +:+ "): no csproj found"))))%js.
Proof.
  intros Hne Hend Hsep. unfold csprojCommand.
  destruct (String.eqb_spec path EmptyString) as [|_]; [contradiction|].
  rewrite Hend, Hsep. reflexivity.
Qed.



(** ** Opting out *)

(** X16: answering "Never For This File" puts the path on the ignore list,
    and a later save of that file is ignored. *)
Lemma never_for_this_file_silences_saves (h : Host)
  (ns : StatusBar.Namespace) (path : string) (w : World) (c : Csproj) :
  resolve h path = inr c ->
  CsprojUtil.hasFile h c path w = false ->
  path <> EmptyString -> endsWith path ".csproj" = false ->
  has_separator path = true ->
  choose h (Path.basename path +:+ " is not in " +:+ name c
            +:+ ", would you like to add it?") = Some 1%nat ->
  let w1 := world (csprojCommand h ns path true w) in
  In path (default [] (ignorePaths w1))
  /\ effects (onDidSaveTextDocument h ns path w1) = [].
Proof.
  intros Hres Hhas Hne Hend Hsep Hpick. cbv zeta.
  assert (In path
            (default [] (ignorePaths (world (csprojCommand h ns path true w)))))
    as Hin.
  { rewrite csprojCommand_guarded by done.
    unfold CsprojUtil.forFile. step. rewrite Hres. cbn. rewrite Hhas. cbn.
    unfold prompt_result. rewrite Hpick. cbn.
    unfold pickAction, updateIgnoredPaths. step.
    statusbar_cases; cbn.
    - rewrite Hig. cbn. apply in_or_app. right. by left.
    - destruct (instanceof_NoCsprojError _); cbn; rewrite Hig; cbn;
        apply in_or_app; right; by left. }
  split; [exact Hin|].
  by rewrite onDidSaveTextDocument_ignored.
Qed.

(** Clearing the list empties it. *)
Lemma clearIgnoredPaths_clears (w : World) :
  ignorePaths (world (clearIgnoredPathsCommand w)) = Some [].
Proof. reflexivity. Qed.

(** ** Dismissed prompts *)

Lemma prompt_dismissed (h : Host) (msg : string) (items : list string) :
  choose h msg = None -> prompt_result h msg items = None.
Proof. unfold prompt_result. by intros ->. Qed.

Lemma csprojCommand_dismissed (h : Host) (ns : StatusBar.Namespace)
  (path : string) (w : World) :
  (forall msg, choose h msg = None) ->
  let r := csprojCommand h ns path true w in
  count is_mutation (effects r) = 0%nat
  /\ trees (world r) = trees w
  /\ ignorePaths (world r) = ignorePaths w.
Proof.
  intros Hdismiss. cbv zeta. unfold csprojCommand.
  destruct (String.eqb path EmptyString); [by cbn|].
  destruct (endsWith path ".csproj" || negb (has_separator path));
    [by cbn|].
  unfold CsprojUtil.forFile. step.
  destruct (resolve h path) as [err|c]; cbn.
  { destruct (instanceof_NoCsprojError err); by cbn. }
  destruct (CsprojUtil.hasFile h c path w); cbn.
  - statusbar_cases; [by cbn|].
    destruct (instanceof_NoCsprojError _); by cbn.
  - rewrite prompt_dismissed by apply Hdismiss. cbn.
    unfold pickAction. step. statusbar_cases; [by cbn|].
    destruct (instanceof_NoCsprojError _); by cbn.
Qed.

Lemma flush_dismissed (h : Host) (removals : list CsprojAndFile) (w : World) :
  (forall msg, choose h msg = None) ->
  silentDeletion h = false ->
  let r := debouncedRemoveFromCsproj_func h removals w in
  count is_mutation (effects r) = 0%nat
  /\ trees (world r) = trees w
  /\ Forall (fun e => forall c p, e <> ExecuteCommand c p) (effects r).
Proof.
  intros Hdismiss Hsilent. cbv zeta.
  unfold debouncedRemoveFromCsproj_func, CsprojUtil.disableInvalidation,
    CsprojUtil.enableInvalidation.
  destruct removals as [|r1 [|r2 rest]]; step; rewrite ?Hsilent; cbn;
    rewrite ?prompt_dismissed by apply Hdismiss; cbn;
    (split; [reflexivity|split; [reflexivity|]]);
    repeat constructor; discriminate.
Qed.

(** C5: when the user dismisses the prompt without choosing, the add command
    run with its prompt adds no entry and persists nothing, and a flush of a
    deletion batch issues no remove command and removes nothing. *)
Theorem dismissed_prompt_declines (h : Host) (ns : StatusBar.Namespace)
  (w : World) :
  (forall msg, choose h msg = None) ->
  (forall path,
     let r := csprojCommand h ns path true w in
     count is_mutation (effects r) = 0%nat
     /\ trees (world r) = trees w
     /\ ignorePaths (world r) = ignorePaths w)
  /\ (silentDeletion h = false ->
      forall removals,
        let r := debouncedRemoveFromCsproj_func h removals w in
        count is_mutation (effects r) = 0%nat
        /\ trees (world r) = trees w
        /\ Forall (fun e => forall c p, e <> ExecuteCommand c p) (effects r)).
Proof.
  intros Hdismiss. split.
  - intros path. by apply csprojCommand_dismissed.
  - intros Hsilent removals. by apply flush_dismissed.
Qed.

Lemma dismissed_prompt_declines_witness :
  (forall msg, choose (Demo.host_with None false) msg = None)
  /\ count is_mutation
       (effects (csprojCommand (Demo.host_with None false) StatusBar.exports
                   "/ws/new.ts" true Demo.world)) = 0%nat
  /\ count is_mutation
       (effects (debouncedRemoveFromCsproj_func (Demo.host_with None false)
                   [{| csproj := Demo.App; filePath := "/ws/a.cs" |}]
                   Demo.world)) = 0%nat.
Proof.
  split; [reflexivity|].
  destruct (dismissed_prompt_declines (Demo.host_with None false)
              StatusBar.exports Demo.world (fun _ => eq_refl))
    as [Hadd Hflush].
  split.
  - apply (Hadd "/ws/new.ts").
  - apply (Hflush eq_refl
             [{| csproj := Demo.App; filePath := "/ws/a.cs" |}]).
Defined.

(** ** One flush of a deletion batch *)

Lemma count_app (p : Effect -> bool) (xs ys : list Effect) :
  count p (xs ++ ys) = (count p xs + count p ys)%nat.
Proof. unfold count. by rewrite filter_app, length_app. Qed.

Lemma count_cons (p : Effect -> bool) (x : Effect) (xs : list Effect) :
  count p (x :: xs) = ((if p x then 1 else 0) + count p xs)%nat.
Proof.
  unfold count. rewrite filter_cons.
  destruct (p x); case_decide; try done; by cbn.
Qed.

Lemma count_removal_traces (h : Host) (p : Effect -> bool)
  (rs : list CsprojAndFile) :
  (forall r e, In e (removal_trace h r) -> p e = false) ->
  count p (flat_map (removal_trace h) rs) = 0%nat.
Proof.
  intros Hp. induction rs as [|r rs IH]; [reflexivity|].
  cbn [flat_map]. rewrite count_app, IH, Nat.add_0_r.
  specialize (Hp r). induction (removal_trace h r) as [|e es IHes];
    [reflexivity|].
  rewrite count_cons, (Hp e) by (by left).
  apply IHes. intros e' He'. apply Hp. by right.
Qed.

Lemma removal_trace_events (h : Host) (r : CsprojAndFile) (e : Effect) :
  In e (removal_trace h r) ->
  is_flush e = false /\ is_confirmation e = false /\ is_persist e = false
  /\ e <> EnableInvalidation.
Proof.
  unfold removal_trace.
  destruct (removeFile_failure h (csproj r) (filePath r)); cbn;
    intuition (subst; try reflexivity; try discriminate).
Qed.

Lemma world_eta (w : World) : set_trees (fun ts => ts) w = w.
Proof. by destruct w. Qed.

(** The remove command as a flush issues it: the descriptor is handed over,
    so the command removes and does not persist. *)
Lemma executeCommand_remove_run (h : Host) (r : CsprojAndFile) (w : World) :
  executeCommand_remove h (filePath r) (csproj r) w
  = {| outcome := Returned tt;
       world := set_trees (remove_entry h r) w;
       effects := removal_trace h r |}.
Proof.
  unfold executeCommand_remove, csprojRemoveCommand, CsprojUtil.removeFile,
    removal_trace, remove_entry.
  step. destruct (removeFile_failure h (csproj r) (filePath r)); cbn.
  - by destruct w.
  - reflexivity.
Qed.

Lemma for_of_removals (h : Host) (rs : list CsprojAndFile) (w : World) :
  for_of rs (fun r => executeCommand_remove h (filePath r) (csproj r)) w
  = {| outcome := Returned tt;
       world := set_trees (remove_all h rs) w;
       effects := flat_map (removal_trace h) rs |}.
Proof.
  revert w. induction rs as [|r rs IH]; intros w.
  - cbn. unfold ret. by destruct w.
  - cbn [for_of]. unfold bind. rewrite executeCommand_remove_run. cbn.
    rewrite IH. reflexivity.
Qed.

Lemma batch_message_code (removals : list CsprojAndFile) (r : CsprojAndFile)
  (rest : list CsprojAndFile) :
  removals = r :: rest ->
  (if (1 <? length removals)%nat
   then multiDeleteMessage (map filePath removals)
   else singleDeleteMessage (csproj r) (filePath r))
  = batch_message removals.
Proof. intros ->. by destruct rest. Qed.

(** What a flush of a non-empty batch does, in full. *)
Lemma flush_run (h : Host) (removals : list CsprojAndFile) (w : World) :
  removals <> [] ->
  debouncedRemoveFromCsproj_func h removals w
  = {| outcome := Returned tt;
       world :=
         set_invalidationDisabled false
           (set_trees (if flush_confirmed h removals
                       then remove_all h removals else fun ts => ts)
              (set_heap (heap w ++ [[]]) (length (heap w)) w));
       effects :=
         DisableInvalidation
         :: (if silentDeletion h then []
             else [ShowWarningMessage (batch_message removals) [YES]])
         ++ (if flush_confirmed h removals
             then flat_map (removal_trace h) removals else [])
         ++ [EnableInvalidation] |}.
Proof.
  intros Hne. destruct removals as [|r rest] eqn:Hrem; [done|].
  rewrite <- Hrem in *.
  unfold debouncedRemoveFromCsproj_func.
  assert ((if (1 <? length removals)%nat
           then ret (multiDeleteMessage (map filePath removals))
           else match removals with
                | r0 :: _ => ret (singleDeleteMessage (csproj r0) (filePath r0))
                | [] => throw (TypeError
                                 "Cannot read property 'csproj' of undefined")
                end)
          = ret (batch_message removals)) as ->.
  { rewrite <- (batch_message_code removals r rest Hrem), Hrem.
    by destruct (1 <? length (r :: rest))%nat. }
  unfold flush_confirmed, CsprojUtil.disableInvalidation,
    CsprojUtil.enableInvalidation.
  step.
  destruct (silentDeletion h); cbn.
  - rewrite for_of_removals. cbn. f_equal.
  - destruct (match prompt_result h (batch_message removals) [YES] with
              | Some a => String.eqb a YES
              | None => false
              end); cbn.
    + rewrite for_of_removals. cbn. f_equal.
    + f_equal.
Qed.

Lemma flush_effects_counts (h : Host) (removals : list CsprojAndFile)
  (w : World) :
  removals <> [] ->
  let r := debouncedRemoveFromCsproj_func h removals w in
  count is_flush (effects r) = 1%nat
  /\ count is_confirmation (effects r)
     = (if silentDeletion h then 0%nat else 1%nat)
  /\ count is_persist (effects r) = 0%nat.
Proof.
  intros Hne. cbv zeta. rewrite flush_run by done. cbn [effects].
  assert (forall p, (forall r e, In e (removal_trace h r) -> p e = false) ->
            count p (if flush_confirmed h removals
                     then flat_map (removal_trace h) removals else []) = 0%nat)
    as Hmid.
  { intros p Hp. destruct (flush_confirmed h removals);
      [by apply count_removal_traces | reflexivity]. }
  rewrite !count_cons, !count_app, !Hmid
    by (intros r e He; by apply removal_trace_events in He as (?&?&?&?)).
  destruct (silentDeletion h); by cbn.
Qed.

(** ** Batches are removed but not written *)

(** C1: a confirmed flush runs [removeFile] for every pending pair before
    invalidation is restored, but no flush ever calls [persist]: the remove
    command skips it because the descriptor was handed over, and the flush
    does not make up for it. *)
Theorem confirmed_flush_is_not_persisted :
  effects (debouncedRemoveFromCsproj_func Demo.host
             [{| csproj := Demo.App; filePath := "/ws/a.cs" |}] Demo.world)
  = [DisableInvalidation;
     ShowWarningMessage "a.cs was deleted. Remove it from App.csproj?" ["Yes"];
     ExecuteCommand "extension.csproj.remove" "/ws/a.cs";
     RemoveFile Demo.App "/ws/a.cs";
     EnableInvalidation]
  /\ (forall h removals w,
        count is_persist
          (effects (debouncedRemoveFromCsproj_func h removals w)) = 0%nat).
Proof.
  split; [vm_compute; reflexivity|].
  intros h removals w. destruct removals as [|r rest].
  - unfold debouncedRemoveFromCsproj_func, CsprojUtil.disableInvalidation.
    step. reflexivity.
  - by apply flush_effects_counts.
Qed.

(** ** The confirmation of a batch *)

(** C7: a flush of more than one removal shows one confirmation that states
    the number of files; a flush of exactly one removal shows one that names
    the file and its descriptor; with the silent-deletion flag no
    confirmation is shown and the batch is removed as after a "Yes". *)
Theorem flush_confirmation_messages (h : Host)
  (removals : list CsprojAndFile) (w : World) :
  removals <> [] ->
  let r := debouncedRemoveFromCsproj_func h removals w in
  (silentDeletion h = false ->
     count is_confirmation (effects r) = 1%nat
     /\ ((1 < length removals)%nat ->
         In (ShowWarningMessage
               (number_to_string (length removals)
                +:+ " files were deleted. Remove them from csproj?") [YES])
            (effects r))
     /\ (forall r0, removals = [r0] ->
         In (ShowWarningMessage
               (Path.basename (filePath r0) +:+ " was deleted. Remove it from "
                +:+ name (csproj r0) +:+ "?") [YES])
            (effects r))
     /\ (prompt_result h (batch_message removals) [YES] = Some YES ->
         trees (world r) = remove_all h removals (trees w)
         /\ effects r =
              DisableInvalidation
              :: ShowWarningMessage (batch_message removals) [YES]
              :: flat_map (removal_trace h) removals ++ [EnableInvalidation]))
  /\ (silentDeletion h = true ->
      count is_confirmation (effects r) = 0%nat
      /\ trees (world r) = remove_all h removals (trees w)
      /\ effects r =
           DisableInvalidation
           :: flat_map (removal_trace h) removals ++ [EnableInvalidation]).
Proof.
  intros Hne. cbv zeta.
  pose proof (flush_effects_counts h removals w Hne) as (_ & Hconf & _).
  cbv zeta in Hconf. rewrite Hconf. rewrite flush_run by done.
  cbn [effects world]. unfold flush_confirmed. split; intros Hsilent;
    rewrite Hsilent; cbn [orb].
  - split; [reflexivity|]. split; [|split].
    + intros Hlen. right. left.
      destruct removals as [|r1 [|r2 rest]]; cbn in Hlen; try lia.
      unfold batch_message, multiDeleteMessage. by rewrite length_map.
    + intros r0 ->. right. by left.
    + intros ->. by cbn.
  - by cbn.
Qed.

Lemma flush_confirmation_messages_witness :
  [ {| csproj := Demo.App; filePath := "/ws/a.cs" |};
    {| csproj := Demo.App; filePath := "/ws/b.cs" |} ] <> []
  /\ In (ShowWarningMessage "2 files were deleted. Remove them from csproj?"
          ["Yes"])
       (effects (debouncedRemoveFromCsproj_func Demo.host
                   [ {| csproj := Demo.App; filePath := "/ws/a.cs" |};
                     {| csproj := Demo.App; filePath := "/ws/b.cs" |} ]
                   Demo.world)).
Proof.
  split; [discriminate|].
  destruct (flush_confirmation_messages Demo.host
              [ {| csproj := Demo.App; filePath := "/ws/a.cs" |};
                {| csproj := Demo.App; filePath := "/ws/b.cs" |} ]
              Demo.world ltac:(discriminate)) as [Hloud _].
  destruct (Hloud eq_refl) as (_ & Hmulti & _).
  apply Hmulti. cbn. lia.
Defined.

(** ** The event loop *)

Lemma bind_run {A B : Type} (m : M A) (k : A -> M B) (w : World) (a : A)
  (w1 : World) (es : list Effect) :
  m w = {| outcome := Returned a; world := w1; effects := es |} ->
  bind m k w = after es (k a w1).
Proof. intros Hm. unfold bind. by rewrite Hm. Qed.

Lemma after_nil {A : Type} (r : Run A) : after [] r = r.
Proof. by destruct r. Qed.

Lemma handleFileDeletion_run (h : Host) (path : string) (w : World) :
  handleFileDeletion h path w
  = match resolve h path with
    | inl err =>
        {| outcome := Returned tt; world := w;
           effects := [ForFile path; ConsoleTrace err] |}
    | inr c =>
        if CsprojUtil.hasFile h c path w then
          {| outcome := Returned tt;
             world :=
               set_timer
                 (Some (now w + _debounceDeleteTime, _csprojRemovals w))
                 (set_heap
                    (alter (fun a => (a ++ [{| csproj := c; filePath := path |}])%list)
                       (_csprojRemovals w) (heap w))
                    (_csprojRemovals w) w);
             effects := [ForFile path] |}
        else
          {| outcome := Returned tt; world := w; effects := [ForFile path] |}
    end.
Proof.
  unfold handleFileDeletion, CsprojUtil.forFile, debouncedRemoveFromCsproj.
  step. destruct (resolve h path) as [err|c]; cbn; [reflexivity|].
  destruct (CsprojUtil.hasFile h c path w); reflexivity.
Qed.

Lemma timerExpired_idle (h : Host) (w : World) :
  match timer w with
  | Some (deadline, _) => now w < deadline
  | None => True
  end ->
  timerExpired h w = {| outcome := Returned tt; world := w; effects := [] |}.
Proof.
  unfold timerExpired. step. destruct (timer w) as [[d a]|]; [|done].
  intros Hlt. destruct (Z.leb_spec d (now w)); [lia|reflexivity].
Qed.

Lemma timerExpired_fires (h : Host) (w : World) (deadline : Z) (args : nat)
  (l : list CsprojAndFile) :
  timer w = Some (deadline, args) ->
  deadline <= now w ->
  heap w !! args = Some l ->
  l <> [] ->
  timerExpired h w
  = debouncedRemoveFromCsproj_func h l (set_timer None w).
Proof.
  intros Htimer Hdue Hl Hne. unfold timerExpired. step.
  rewrite Htimer. destruct (Z.leb_spec deadline (now w)); [|lia].
  cbn. rewrite Hl. cbn.
  rewrite (flush_run h l (set_timer None w) Hne). reflexivity.
Qed.

Lemma count_ForFile (p : Effect -> bool) (evs : list (Z * string)) :
  (forall path, p (ForFile path) = false) ->
  count p (map (fun e => ForFile (snd e)) evs) = 0%nat.
Proof.
  intros Hp. induction evs as [|e evs IH]; [reflexivity|].
  cbn [map]. by rewrite count_cons, Hp, IH.
Qed.

Lemma within_window_tail (e : Z * string) (evs : list (Z * string)) :
  within_window (e :: evs) -> within_window evs.
Proof. destruct e as [t p], evs as [|[t' p'] rest]; cbn; tauto. Qed.

(** A run of tracked notifications, none of which lets the timer expire,
    only queues: every pair lands in the same array, the timer is pending on
    that array, and nothing is flushed. *)
Lemma deliver_burst (h : Host) (evs : list (Z * string)) :
  forall w,
    Forall (fun e => tracked h w (snd e) = true) evs ->
    within_window evs ->
    match evs, timer w with
    | (t, _) :: _, Some (deadline, _) => t < deadline
    | _, _ => True
    end ->
    exists w',
      deliver h evs w
      = {| outcome := Returned tt; world := w';
           effects := map (fun e => ForFile (snd e)) evs |}
      /\ trees w' = trees w
      /\ invalidationDisabled w' = invalidationDisabled w
      /\ _csprojRemovals w' = _csprojRemovals w
      /\ heap w'
         = alter (fun a => (a ++ batch h evs)%list) (_csprojRemovals w) (heap w)
      /\ (evs <> [] ->
          exists deadline, timer w' = Some (deadline, _csprojRemovals w)).
Proof.
  induction evs as [|[t p] rest IH]; intros w Htracked Hwin Htimer.
  - exists w. cbn. unfold ret. repeat split; try done.
    symmetry. apply list_alter_id. intros a. apply app_nil_r.
  - inversion Htracked as [|? ? Hp Hrest]; subst. cbn [snd] in Hp.
    unfold tracked in Hp. destruct (resolve h p) as [err|c] eqn:Hres; [done|].
    set (w1 := set_now t w).
    set (w2 := set_timer (Some (t + _debounceDeleteTime, _csprojRemovals w))
                 (set_heap
                    (alter (fun a => (a ++ [{| csproj := c; filePath := p |}])%list)
                       (_csprojRemovals w) (heap w))
                    (_csprojRemovals w) w1)).
    destruct (IH w2) as (w' & Hrun & Htr & Hinv & Href & Hheap & Htm).
    { exact Hrest. }
    { by apply within_window_tail in Hwin. }
    { destruct rest as [|[t' p'] rest']; [done|]. cbn in Hwin |- *. lia. }
    exists w'. split; [|repeat split].
    + cbn [deliver].
      rewrite (bind_run _ _ w tt w1 []) by reflexivity.
      rewrite (bind_run _ _ w1 tt w1 []).
      2:{ apply timerExpired_idle. cbn.
          destruct (timer w) as [[d a]|]; [exact Htimer|done]. }
      rewrite (bind_run _ _ w1 tt w2 [ForFile p]).
      2:{ rewrite handleFileDeletion_run, Hres.
          change (CsprojUtil.hasFile h c p w1)
            with (CsprojUtil.hasFile h c p w).
          by rewrite Hp. }
      rewrite Hrun. reflexivity.
    + exact Htr.
    + exact Hinv.
    + exact Href.
    + rewrite Hheap. cbn. rewrite list_alter_alter_eq.
      apply list_alter_ext; [|done]. intros a _. cbn. rewrite Hres.
      by rewrite <- app_assoc.
    + intros _. destruct rest as [|e rest'].
      * exists (t + _debounceDeleteTime). cbn in Hrun.
        unfold ret in Hrun. by injection Hrun as <-.
      * by apply Htm.
Qed.

Lemma settle_fires (h : Host) (w : World) (deadline : Z) (args : nat)
  (l : list CsprojAndFile) :
  timer w = Some (deadline, args) ->
  heap w !! args = Some l ->
  l <> [] ->
  settle h w
  = debouncedRemoveFromCsproj_func h l
      (set_timer None (set_now (Z.max (now w) deadline) w)).
Proof.
  intros Htimer Hl Hne. unfold settle.
  rewrite (bind_run _ _ w w w []) by reflexivity. rewrite Htimer.
  rewrite (bind_run _ _ w tt (set_now (Z.max (now w) deadline) w) [])
    by reflexivity.
  rewrite (timerExpired_fires h _ deadline args l)
    by (cbn; first [done | lia]).
  by rewrite !after_nil.
Qed.

Lemma batch_tracked (h : Host) (w : World) (evs : list (Z * string)) :
  Forall (fun e => tracked h w (snd e) = true) evs ->
  length (batch h evs) = length evs.
Proof.
  induction 1 as [|[t p] rest Hp _ IH]; [reflexivity|].
  unfold tracked in Hp. unfold batch in IH |- *. cbn in Hp |- *.
  destruct (resolve h p); [done|]. cbn. by rewrite IH.
Qed.

(** ** Debouncing *)

(** C4, as the claim words it, fails: three notifications, each within the
    quiet window of the one before, of which the middle one is for a file
    its descriptor does not list.  That one does not restart the timer, so
    the first batch is flushed before the third notification: two flushes
    and two confirmations. *)
Lemma untracked_notification_splits_burst :
  let notifications :=
    [(0, "/ws/a.cs"); (1500, "/ws/zz.cs"); (3000, "/ws/b.cs")] in
  let r := timeline Demo.host notifications Demo.world in
  within_window notifications
  /\ count is_flush (effects r) = 2%nat
  /\ count is_confirmation (effects r) = 2%nat
  /\ ~ (count is_flush (effects r) = 1%nat
        /\ count is_confirmation (effects r) = 1%nat).
Proof.
  cbv zeta. split; [cbn; unfold _debounceDeleteTime; lia|].
  assert (count is_flush
            (effects (timeline Demo.host
                        [(0, "/ws/a.cs"); (1500, "/ws/zz.cs"); (3000, "/ws/b.cs")]
                        Demo.world)) = 2%nat) as Hflush
    by (vm_compute; reflexivity).
  assert (count is_confirmation
            (effects (timeline Demo.host
                        [(0, "/ws/a.cs"); (1500, "/ws/zz.cs"); (3000, "/ws/b.cs")]
                        Demo.world)) = 2%nat) as Hconf
    by (vm_compute; reflexivity).
  rewrite Hflush, Hconf. repeat split; intros [? _]; discriminate.
Qed.

(** With the silent-deletion flag a burst is flushed once and confirmed
    not at all. *)
Lemma silent_burst_has_no_confirmation :
  let r := timeline (Demo.host_with (Some 0%nat) true)
             [(0, "/ws/a.cs"); (100, "/ws/b.cs"); (300, "/ws/c.cs")]
             Demo.world in
  count is_flush (effects r) = 1%nat
  /\ count is_confirmation (effects r) = 0%nat.
Proof. vm_compute. split; reflexivity. Qed.

(** C4 (amended): for every non-empty sequence of deletion notifications,
    each for a file its governing descriptor lists and each within the quiet
    window of the one before, the whole sequence is flushed exactly once, as
    one batch holding every notification, with exactly one confirmation, or
    none when the silent-deletion flag is set. *)
Theorem one_flush_per_burst (h : Host) (ts : gmap string (list ItemEntry))
  (ignored : option (list string)) (notifications : list (Z * string)) :
  notifications <> [] ->
  within_window notifications ->
  Forall (fun e => tracked h (init ts ignored) (snd e) = true) notifications ->
  let r := timeline h notifications (init ts ignored) in
  let pending := batch h notifications in
  outcome r = Returned tt
  /\ count is_flush (effects r) = 1%nat
  /\ count is_confirmation (effects r)
     = (if silentDeletion h then 0%nat else 1%nat)
  /\ length pending = length notifications
  /\ effects r =
       (map (fun e => ForFile (snd e)) notifications
        ++ DisableInvalidation
           :: (if silentDeletion h then []
               else [ShowWarningMessage (batch_message pending) [YES]])
           ++ (if flush_confirmed h pending
               then flat_map (removal_trace h) pending else [])
           ++ [EnableInvalidation])%list
  /\ timer (world r) = None.
Proof.
  intros Hne Hwin Htracked. cbv zeta.
  pose proof (batch_tracked h _ _ Htracked) as Hlen.
  assert (batch h notifications <> []) as Hbatch.
  { intros Hnil. rewrite Hnil in Hlen. by destruct notifications. }
  destruct (deliver_burst h notifications (init ts ignored) Htracked Hwin)
    as (w' & Hrun & _ & _ & _ & Hheap & Htimer).
  { by destruct notifications as [|[t p] rest]. }
  destruct (Htimer Hne) as [deadline Hpending]. cbn in Hheap, Hpending.
  assert (effects (timeline h notifications (init ts ignored)) =
            (map (fun e => ForFile (snd e)) notifications
             ++ effects (debouncedRemoveFromCsproj_func h
                           (batch h notifications)
                           (set_timer None
                              (set_now (Z.max (now w') deadline) w'))))%list
          /\ outcome (timeline h notifications (init ts ignored)) = Returned tt
          /\ timer (world (timeline h notifications (init ts ignored))) = None)
    as (Heff & Hout & Htm).
  { unfold timeline. rewrite (bind_run _ _ _ tt w' _ Hrun).
    rewrite (settle_fires h w' deadline 0 (batch h notifications));
      [|done|by rewrite Hheap|done].
    rewrite flush_run by done. by cbn. }
  rewrite Heff, Hout, Htm, !count_app.
  pose proof (flush_effects_counts h (batch h notifications)
                (set_timer None (set_now (Z.max (now w') deadline) w'))
                Hbatch) as (Hf & Hc & _).
  cbv zeta in Hf, Hc. rewrite Hf, Hc, !count_ForFile by done.
  rewrite flush_run by done. cbn [effects]. by repeat split.
Qed.

Lemma one_flush_per_burst_witness :
  within_window [(0, "/ws/a.cs"); (100, "/ws/b.cs"); (300, "/ws/c.cs")]
  /\ count is_flush
       (effects (timeline Demo.host
                   [(0, "/ws/a.cs"); (100, "/ws/b.cs"); (300, "/ws/c.cs")]
                   (init Demo.trees None))) = 1%nat.
Proof.
  assert (within_window [(0, "/ws/a.cs"); (100, "/ws/b.cs"); (300, "/ws/c.cs")])
    as Hwin by (cbn; unfold _debounceDeleteTime; lia).
  split; [exact Hwin|].
  assert (Forall (fun e => tracked Demo.host (init Demo.trees None) (snd e) = true)
            [(0, "/ws/a.cs"); (100, "/ws/b.cs"); (300, "/ws/c.cs")])
    as Htracked by (repeat (constructor; [vm_compute; reflexivity|]); constructor).
  destruct (one_flush_per_burst Demo.host Demo.trees None
              [(0, "/ws/a.cs"); (100, "/ws/b.cs"); (300, "/ws/c.cs")]
              ltac:(discriminate) Hwin Htracked) as (_ & Hflush & _).
  exact Hflush.
Defined.

(** ** Suppression of invalidation *)



Lemma init_consistent (ts : gmap string (list ItemEntry))
  (ignored : option (list string)) :
  batcher_consistent (init ts ignored).
Proof. repeat split; cbn; [lia|done]. Qed.

Lemma handleFileDeletion_consistent (h : Host) (path : string) (w : World) :
  batcher_consistent w ->
  outcome (handleFileDeletion h path w) = Returned tt
  /\ batcher_consistent (world (handleFileDeletion h path w)).
Proof.
  intros (Hinv & Href & Htimer). rewrite handleFileDeletion_run.
  destruct (resolve h path) as [err|c]; [by repeat split|].
  destruct (CsprojUtil.hasFile h c path w); [|by repeat split].
  split; [reflexivity|]. repeat split; cbn.
  - exact Hinv.
  - by rewrite length_alter.
  - intros d a [= <- <-]. rewrite list_lookup_alter_eq.
    destruct (lookup_lt_is_Some_2 _ _ Href) as [l ->]. cbn.
    eexists; split; [reflexivity|]. by destruct l.
Qed.

Lemma timerExpired_consistent (h : Host) (w : World) :
  batcher_consistent w ->
  outcome (timerExpired h w) = Returned tt
  /\ batcher_consistent (world (timerExpired h w)).
Proof.
  intros Hw. pose proof Hw as (Hinv & Href & Htimer).
  destruct (timer w) as [[d a]|] eqn:Htm.
  - destruct (Z.le_gt_cases d (now w)) as [Hdue|Hlate].
    + destruct (Htimer d a eq_refl) as (l & Hl & Hne).
      rewrite (timerExpired_fires h w d a l) by done.
      rewrite flush_run by done. split; [reflexivity|].
      repeat split; cbn; [rewrite length_app; cbn; lia|done].
    + rewrite timerExpired_idle by (rewrite Htm; lia).
      split; [reflexivity|exact Hw].
  - rewrite timerExpired_idle by (by rewrite Htm).
    split; [reflexivity|exact Hw].
Qed.

Lemma deliver_consistent (h : Host) (notifications : list (Z * string)) :
  forall w,
    batcher_consistent w ->
    outcome (deliver h notifications w) = Returned tt
    /\ batcher_consistent (world (deliver h notifications w)).
Proof.
  induction notifications as [|[t p] rest IH]; intros w Hw; [by split|].
  cbn [deliver]. unfold bind, modify. cbn.
  destruct (timerExpired_consistent h (set_now t w) Hw) as [Ho2 Hw2].
  destruct (timerExpired h (set_now t w)) as [o2 w2 es2].
  cbn in Ho2, Hw2 |- *. subst o2.
  destruct (handleFileDeletion_consistent h p w2 Hw2) as [Ho3 Hw3].
  destruct (handleFileDeletion h p w2) as [o3 w3 es3].
  cbn in Ho3, Hw3 |- *. subst o3.
  destruct (IH w3 Hw3) as [Ho4 Hw4].
  destruct (deliver h rest w3) as [o4 w4 es4]. cbn in Ho4, Hw4 |- *.
  by split.
Qed.

Lemma timeline_consistent (h : Host) (notifications : list (Z * string))
  (w : World) :
  batcher_consistent w ->
  outcome (timeline h notifications w) = Returned tt
  /\ batcher_consistent (world (timeline h notifications w)).
Proof.
  intros Hw. destruct (deliver_consistent h notifications w Hw) as [Ho1 Hw1].
  unfold timeline, bind.
  destruct (deliver h notifications w) as [o1 w1 es1]. cbn in Ho1, Hw1.
  subst o1. unfold settle, bind, get, modify. cbn.
  destruct (timer w1) as [[d a]|] eqn:Htm; cbn; [|by split].
  destruct (timerExpired_consistent h (set_now (Z.max (now w1) d) w1) Hw1)
    as [Ho3 Hw3].
  destruct (timerExpired h (set_now (Z.max (now w1) d) w1)) as [o3 w3 es3].
  cbn in Ho3, Hw3 |- *. by split.
Qed.


(** The add action is not bracketed either. *)
Lemma add_is_not_bracketed :
  bracketed false
    (effects (csprojCommand Demo.host StatusBar.exports "/ws/new.ts" false
                Demo.world)) = false.
Proof. vm_compute. reflexivity. Qed.



(** * Further properties of the code *)

(** ** Item types *)

(** X1: an extension map never resolves to the empty tag, whatever it maps
    the extension and the wildcard to. *)
Theorem getTypeForFile_map_never_empty (fileName : string)
  (tags : gmap string string) :
  getTypeForFile fileName (ByExtension tags) <> EmptyString.
Proof.
  unfold getTypeForFile, js_or.
  destruct (tags !! Path.extname fileName) as [t|]; cbn [truthy].
  - destruct (String.eqb_spec t EmptyString) as [->|Hne]; cbn.
    + destruct (tags !! "*") as [t'|]; cbn; [|discriminate].
      destruct (String.eqb_spec t' EmptyString) as [->|Hne']; cbn;
        [discriminate|done].
    + destruct (String.eqb_spec t EmptyString); [done|]. by cbn.
  - destruct (tags !! "*") as [t'|]; cbn; [|discriminate].
    destruct (String.eqb_spec t' EmptyString) as [->|Hne']; cbn;
      [discriminate|done].
Qed.

(** X2: under the rule the configuration falls back to, a file is tagged
    [TypeScriptCompile] exactly when its extension is [.ts], and [Content]
    otherwise. *)
Theorem getTypeForFile_default_rule (fileName : string) :
  getTypeForFile fileName default_itemType
  = if String.eqb (Path.extname fileName) ".ts"
    then "TypeScriptCompile" else "Content".
Proof.
  unfold getTypeForFile, default_itemType.
  destruct (String.eqb_spec (Path.extname fileName) ".ts") as [->|Hne].
  - reflexivity.
  - rewrite lookup_insert_ne by done.
    rewrite (lookup_insert_ne _ ".ts" "*") by done.
    rewrite lookup_singleton_eq.
    destruct (decide (Path.extname fileName = "*")) as [->|Hstar].
    + by rewrite lookup_singleton_eq.
    + by rewrite lookup_singleton_ne.
Qed.

(** ** The status-bar module on its own *)

Lemma statusbar_apply_coherent (f : StatusBar.Function_)
  (a0 : option string) (a1 : option bool) (w : World) :
  statusbar_coherent w ->
  statusbar_coherent (world (StatusBar.apply f a0 a1 w)).
Proof.
  unfold statusbar_coherent.
  destruct f; unfold StatusBar.apply, StatusBar.displayStatusBarItem,
    StatusBar.hideStatusBarItem, StatusBar.createStatusBarItem,
    StatusBar.visible; step;
    destruct (_statusBarItem w) as [item|] eqn:Hitem; cbn; rewrite ?Hitem;
    intuition.
Qed.

(** X3: from the state the module is loaded in, after any sequence of calls
    of its four functions, with any arguments, the visibility flag is the
    item's shown state ([false] while there is no item) and the item's
    command is [extension.csproj.add]. *)
Theorem statusbar_session_coherent (calls : list StatusBarCall)
  (ts : gmap string (list ItemEntry)) (ignored : option (list string)) :
  statusbar_coherent (statusbar_session calls (init ts ignored)).
Proof.
  assert (forall w, statusbar_coherent w ->
                    statusbar_coherent (statusbar_session calls w)) as Hgen.
  { induction calls as [|c rest IH]; intros w Hw; [exact Hw|].
    cbn [statusbar_session]. apply IH. by apply statusbar_apply_coherent. }
  apply Hgen. reflexivity.
Qed.

(** X4: showing an item and then hiding it clears the text and the flag but
    leaves the tooltip of the last display in place; creating the item anew
    resets text, tooltip and flag. *)
Theorem statusbar_display_hide_create (csprojName : string)
  (contained : bool) (w : World) (item : StatusBarItem) :
  _statusBarItem w = Some item ->
  let label := if contained then "Contained in " +:+ csprojName
               else "Add to " +:+ csprojName in
  let shown_ := world (StatusBar.displayStatusBarItem (Some csprojName)
                         (Some contained) w) in
  let hidden := world (StatusBar.hideStatusBarItem shown_) in
  let fresh := world (StatusBar.createStatusBarItem shown_) in
  _statusBarItem shown_
  = Some {| text := label; tooltip := label; shown := true;
            command := command item |}
  /\ _statusBarItemVisible shown_ = true
  /\ _statusBarItem hidden
     = Some {| text := EmptyString; tooltip := label; shown := false;
               command := command item |}
  /\ _statusBarItemVisible hidden = false
  /\ _statusBarItem fresh
     = Some {| text := EmptyString; tooltip := EmptyString; shown := false;
               command := "extension.csproj.add" |}
  /\ _statusBarItemVisible fresh = false.
Proof.
  intros Hitem. cbv zeta.
  unfold StatusBar.displayStatusBarItem, StatusBar.hideStatusBarItem,
    StatusBar.createStatusBarItem.
  step. rewrite Hitem. cbn. by destruct contained.
Qed.

Lemma statusbar_display_hide_create_witness :
  let w := world (StatusBar.createStatusBarItem Demo.world) in
  _statusBarItemVisible
    (world (StatusBar.hideStatusBarItem
              (world (StatusBar.displayStatusBarItem (Some "App.csproj")
                        (Some true) w)))) = false.
Proof.
  cbv zeta.
  destruct (statusbar_display_hide_create "App.csproj" true
              (world (StatusBar.createStatusBarItem Demo.world))
              {| text := EmptyString; tooltip := EmptyString; shown := false;
                 command := "extension.csproj.add" |} eq_refl)
    as (_ & _ & _ & Hhidden & _).
  exact Hhidden.
Defined.

(** ** The two commands *)

Lemma outcome_after {A : Type} (es : list Effect) (r : Run A) :
  outcome (after es r) = outcome r.
Proof. by destruct r. Qed.

Lemma world_after {A : Type} (es : list Effect) (r : Run A) :
  world (after es r) = world r.
Proof. by destruct r. Qed.

Lemma effects_after {A : Type} (es : list Effect) (r : Run A) :
  effects (after es r) = (es ++ effects r)%list.
Proof. by destruct r. Qed.

Lemma try_catch_unit_total (body : M unit) (handler : JsError -> M unit)
  (w : World) :
  (forall e w', outcome (handler e w') = Returned tt) ->
  outcome (try_catch body handler w) = Returned tt.
Proof.
  intros Hh. unfold try_catch.
  destruct (body w) as [[[]|e] w1 es]; [reflexivity|].
  by rewrite outcome_after.
Qed.

(** Once they have their path, the bodies of the two commands return
    normally, whatever the resolution, the descriptor operations, the
    status bar or the user do. *)
Lemma command_bodies_return (h : Host) (ns : StatusBar.Namespace)
  (path : string) (prompt : bool) (provided : option Csproj) (w : World) :
  outcome (csprojCommand h ns path prompt w) = Returned tt
  /\ outcome (csprojRemoveCommand h path provided w) = Returned tt.
Proof.
  split.
  - unfold csprojCommand.
    destruct (String.eqb path EmptyString); [reflexivity|].
    unfold bind at 1. cbn.
    destruct (endsWith path ".csproj" || negb (has_separator path));
      [reflexivity|].
    rewrite outcome_after. apply try_catch_unit_total.
    intros e w'. destruct (instanceof_NoCsprojError e); reflexivity.
  - unfold csprojRemoveCommand, CsprojUtil.forFile, CsprojUtil.removeFile,
      CsprojUtil.persist.
    destruct provided as [c|]; step.
    + destruct (removeFile_failure h c path); reflexivity.
    + destruct (resolve h path) as [err|c]; cbn.
      * destruct (instanceof_NoCsprojError err); reflexivity.
      * destruct (removeFile_failure h c path); cbn; [reflexivity|].
        destruct (persist_failure h c); reflexivity.
Qed.

(** X6: the explicit remove command, once the descriptor is resolved, calls
    [removeFile] and then [persist]; it does not attempt to persist when
    [removeFile] failed, and it shows each failure to the user once. *)
Theorem explicit_remove_outcomes (h : Host) (path : string) (w : World)
  (c : Csproj) :
  resolve h path = inr c ->
  effects (csprojRemoveCommand h path None w) =
    ForFile path :: RemoveFile c path
    :: match removeFile_failure h c path with
       | Some err => [ShowErrorMessage (toString err); ConsoleTrace err]
       | None =>
           match persist_failure h c with
           | None => [Persist c true]
           | Some err =>
               [Persist c false; ShowErrorMessage (toString err);
                ConsoleTrace err]
           end
       end.
Proof.
  intros Hres.
  unfold csprojRemoveCommand, CsprojUtil.forFile, CsprojUtil.removeFile,
    CsprojUtil.persist.
  step. rewrite Hres. cbn.
  destruct (removeFile_failure h c path); cbn; [reflexivity|].
  destruct (persist_failure h c); reflexivity.
Qed.

Lemma explicit_remove_outcomes_witness :
  resolve Demo.host "/ws/a.cs" = inr Demo.App
  /\ effects (csprojRemoveCommand Demo.host "/ws/a.cs" None Demo.world)
     = [ForFile "/ws/a.cs"; RemoveFile Demo.App "/ws/a.cs";
        Persist Demo.App true].
Proof.
  split; [reflexivity|].
  exact (explicit_remove_outcomes Demo.host "/ws/a.cs" Demo.world Demo.App
           eq_refl).
Defined.

(** X7: when the resolution of the descriptor fails with anything but
    [NoCsprojError], the explicit remove command only traces the error on
    the console: no message is shown, nothing is removed, the world is
    unchanged. *)
Theorem explicit_remove_swallows_other_errors (h : Host) (path : string)
  (w : World) (err : JsError) :
  resolve h path = inl err ->
  instanceof_NoCsprojError err = false ->
  let r := csprojRemoveCommand h path None w in
  effects r = [ForFile path; ConsoleTrace err] /\ world r = w.
Proof.
  intros Hres Hinst. cbv zeta.
  unfold csprojRemoveCommand, CsprojUtil.forFile. step.
  rewrite Hres. cbn. rewrite Hinst. by cbn.
Qed.

(** X8: for a file the descriptor already lists, the add command adds
    nothing, persists nothing, never asks whether to add, and leaves the
    descriptor trees and the ignore list as they are. *)
Theorem add_of_listed_file (h : Host) (ns : StatusBar.Namespace)
  (path : string) (prompt : bool) (w : World) (c : Csproj) :
  resolve h path = inr c ->
  CsprojUtil.hasFile h c path w = true ->
  let r := csprojCommand h ns path prompt w in
  count is_mutation (effects r) = 0%nat
  /\ count is_information_prompt (effects r) = 0%nat
  /\ trees (world r) = trees w
  /\ ignorePaths (world r) = ignorePaths w.
Proof.
  intros Hres Hhas. cbv zeta. unfold csprojCommand.
  destruct (String.eqb path EmptyString); [by cbn|].
  destruct (endsWith path ".csproj" || negb (has_separator path));
    [by cbn|].
  unfold CsprojUtil.forFile. step. rewrite Hres. cbn. rewrite Hhas. cbn.
  statusbar_cases.
  - destruct prompt; by cbn.
  - destruct (instanceof_NoCsprojError _); by cbn.
Qed.

Lemma explicit_remove_swallows_other_errors_witness :
  resolve Scenario.unreadable_host "/ws/a.cs"
  = inl (OtherError "EACCES: permission denied")
  /\ effects (csprojRemoveCommand Scenario.unreadable_host "/ws/a.cs" None
                Demo.world)
     = [ForFile "/ws/a.cs";
        ConsoleTrace (OtherError "EACCES: permission denied")].
Proof.
  split; [reflexivity|].
  apply (explicit_remove_swallows_other_errors Scenario.unreadable_host
           "/ws/a.cs" Demo.world (OtherError "EACCES: permission denied")
           eq_refl eq_refl).
Defined.

Lemma add_of_listed_file_witness :
  CsprojUtil.hasFile Demo.host Demo.App "/ws/a.cs" Demo.world = true
  /\ count is_mutation
       (effects (csprojCommand Demo.host StatusBar.exports "/ws/a.cs" false
                   Demo.world)) = 0%nat.
Proof.
  assert (CsprojUtil.hasFile Demo.host Demo.App "/ws/a.cs" Demo.world = true)
    as Hhas by (vm_compute; reflexivity).
  split; [exact Hhas|].
  destruct (add_of_listed_file Demo.host StatusBar.exports "/ws/a.cs" false
              Demo.world Demo.App eq_refl Hhas) as (Hmut & _).
  exact Hmut.
Defined.

Arguments pickAction : simpl never.

(** X9: answering the prompt with "Yes" does what the explicit add command
    does: the same world results, and the traces differ by the prompt
    alone. *)
Theorem answering_yes_is_explicit_add (h : Host) (ns : StatusBar.Namespace)
  (path : string) (w : World) (c : Csproj) :
  resolve h path = inr c ->
  CsprojUtil.hasFile h c path w = false ->
  path <> EmptyString -> endsWith path ".csproj" = false ->
  has_separator path = true ->
  choose h (Path.basename path +:+ " is not in " +:+ name c
            +:+ ", would you like to add it?") = Some 0%nat ->
  let asked := csprojCommand h ns path true w in
  let direct := csprojCommand h ns path false w in
  world asked = world direct
  /\ exists rest,
       effects direct
       = (ConsoleLog ("extension.csproj#trigger(" +:+ Path.basename path
                      +:+ ")")
          :: ForFile path :: rest)
       /\ effects asked
          = (ConsoleLog ("extension.csproj#trigger(" +:+ Path.basename path
                         +:+ ")")
             :: ForFile path
             :: ShowInformationMessage
                  (Path.basename path +:+ " is not in " +:+ name c
                   +:+ ", would you like to add it?") [YES; NEVER]
             :: rest).
Proof.
  intros Hres Hhas Hne Hend Hsep Hpick. cbv zeta.
  rewrite !csprojCommand_guarded by done.
  unfold CsprojUtil.forFile. step. rewrite Hres. cbn. rewrite Hhas. cbn.
  unfold prompt_result. rewrite Hpick. cbn.
  match goal with
  | |- context [pickAction h ns PickYes ?a w] =>
      destruct (pickAction h ns PickYes a w) as [[[]|e] w1 es]; cbn
  end.
  - split; [reflexivity|]. by eexists.
  - destruct (instanceof_NoCsprojError e); cbn;
      (split; [reflexivity|]); by eexists.
Qed.

Lemma answering_yes_is_explicit_add_witness :
  CsprojUtil.hasFile Demo.host Demo.App "/ws/new.ts" Demo.world = false
  /\ world (csprojCommand Demo.host StatusBar.exports "/ws/new.ts" true
              Demo.world)
     = world (csprojCommand Demo.host StatusBar.exports "/ws/new.ts" false
                Demo.world).
Proof.
  assert (CsprojUtil.hasFile Demo.host Demo.App "/ws/new.ts" Demo.world
          = false) as Hhas by (vm_compute; reflexivity).
  split; [exact Hhas|].
  destruct (answering_yes_is_explicit_add Demo.host StatusBar.exports
              "/ws/new.ts" Demo.world Demo.App eq_refl Hhas
              ltac:(discriminate) eq_refl eq_refl eq_refl) as [Hw _].
  exact Hw.
Defined.

(** X10: the add command never drops a path from the ignore list; the only
    change it makes to the list is to append the very file it was run
    for. *)
Theorem add_command_and_ignore_list (h : Host) (ns : StatusBar.Namespace)
  (path : string) (prompt : bool) (w : World) :
  let after_ := ignorePaths (world (csprojCommand h ns path prompt w)) in
  after_ = ignorePaths w
  \/ after_ = Some (default [] (ignorePaths w) ++ [path])%list.
Proof.
  cbv zeta. unfold csprojCommand.
  destruct (String.eqb path EmptyString); [by left|].
  destruct (endsWith path ".csproj" || negb (has_separator path));
    [by left|].
  unfold CsprojUtil.forFile. step.
  destruct (resolve h path) as [err|c]; cbn.
  { destruct (instanceof_NoCsprojError err); by left. }
  destruct (CsprojUtil.hasFile h c path w) eqn:Hhas; cbn.
  { statusbar_cases.
    - destruct prompt; by left.
    - destruct (instanceof_NoCsprojError _); by left. }
  assert (forall a : PickAction,
            let r := try_catch
                       (pickAction h ns a
                          {| target := {| csproj := c; filePath := path |};
                             fileName := Path.basename path |})
                       (fun err =>
                          if negb (instanceof_NoCsprojError err) then
                            showErrorMessage (toString err) ;;
                            emit (ConsoleTrace err)
                          else
                            emit (ConsoleLog
                                    ("extension.csproj#trigger("
                                     +:+ Path.basename path
                                     +:+ "): no csproj found"))) w in
            ignorePaths (world r) = ignorePaths w
            \/ ignorePaths (world r)
               = Some (default [] (ignorePaths w) ++ [path])%list) as Hact.
  { intros a. cbv zeta.
    unfold pickAction, CsprojUtil.addFile, CsprojUtil.persist,
      updateIgnoredPaths.
    destruct a; step; rewrite ?Hhas; cbn.
    - destruct (persist_failure h c) as [e|]; cbn.
      + destruct (instanceof_NoCsprojError e); by left.
      + statusbar_cases; [by left|].
        destruct (instanceof_NoCsprojError _); cbn; by left.
    - statusbar_cases; [by left|].
      destruct (instanceof_NoCsprojError _); cbn; by left.
    - statusbar_cases; cbn; [by right|].
      destruct (instanceof_NoCsprojError _); cbn; by right. }
  destruct prompt; cbn.
  - match goal with
    | |- context [pickAction h ns ?a ?args w] => specialize (Hact a)
    end.
    cbv zeta in Hact. unfold try_catch in Hact.
    match goal with
    | |- context [pickAction h ns ?a ?args w] =>
        destruct (pickAction h ns a args w) as [[[]|e] w1 es]
    end; cbn in Hact |- *; [exact Hact|].
    rewrite world_after in Hact.
    match goal with
    | |- context [instanceof_NoCsprojError ?e] =>
        destruct (instanceof_NoCsprojError e)
    end; cbn in Hact |- *; exact Hact.
  - specialize (Hact PickYes). cbv zeta in Hact. unfold try_catch in Hact.
    match goal with
    | |- context [pickAction h ns ?a ?args w] =>
        destruct (pickAction h ns a args w) as [[[]|e] w1 es]
    end; cbn in Hact |- *; [exact Hact|].
    rewrite world_after in Hact.
    match goal with
    | |- context [instanceof_NoCsprojError ?e] =>
        destruct (instanceof_NoCsprojError e)
    end; cbn in Hact |- *; exact Hact.
Qed.

(** ** Which files are eligible *)

Lemma isDesiredFile_pure (h : Host) (uri : string) (w : World) :
  world (isDesiredFile h uri w) = w /\ effects (isDesiredFile h uri w) = [].
Proof.
  unfold isDesiredFile. step.
  destruct (existsb (String.eqb uri) (default [] (ignorePaths w)));
    [by cbn|].
  destruct (includeRegex h) as [re|]; cbn.
  - destruct (regexp_test h re uri) as [err|[]]; cbn; [done| |done].
    destruct (excludeRegex h) as [re'|]; cbn; [|done].
    by destruct (regexp_test h re' uri) as [err|[]].
  - destruct (excludeRegex h) as [re'|]; cbn; [|done].
    by destruct (regexp_test h re' uri) as [err|[]].
Qed.

Lemma isDesiredFile_frame (h : Host) (uri : string) (w w1 : World) :
  ignorePaths w1 = ignorePaths w ->
  outcome (isDesiredFile h uri w1) = outcome (isDesiredFile h uri w).
Proof.
  intros Hig. unfold isDesiredFile. step. rewrite Hig.
  destruct (existsb (String.eqb uri) (default [] (ignorePaths w)));
    [by cbn|].
  destruct (includeRegex h) as [re|]; cbn.
  - destruct (regexp_test h re uri) as [err|[]]; cbn; [done| |done].
    destruct (excludeRegex h) as [re'|]; cbn; [|done].
    by destruct (regexp_test h re' uri) as [err|[]].
  - destruct (excludeRegex h) as [re'|]; cbn; [|done].
    by destruct (regexp_test h re' uri) as [err|[]].
Qed.

Lemma not_In_existsb (x : string) (l : list string) :
  ~ In x l -> existsb (String.eqb x) l = false.
Proof.
  intros Hnin. apply not_true_is_false. intros Hex.
  apply existsb_exists in Hex as (y & Hy & Heq).
  apply String.eqb_eq in Heq. by subst.
Qed.

(** X11: [isDesiredFile] answers [true] exactly for the paths that are not
    on the ignore list, that the include pattern admits and that the
    exclude pattern lets pass; it changes nothing and emits nothing. *)
Theorem isDesiredFile_true_iff (h : Host) (uri : string) (w : World) :
  (outcome (isDesiredFile h uri w) = Returned true
   <-> ~ In uri (default [] (ignorePaths w))
       /\ include_admits h uri /\ exclude_passes h uri)
  /\ world (isDesiredFile h uri w) = w
  /\ effects (isDesiredFile h uri w) = [].
Proof.
  split; [|apply isDesiredFile_pure].
  unfold isDesiredFile, include_admits, exclude_passes. step.
  destruct (existsb (String.eqb uri) (default [] (ignorePaths w))) eqn:Hig.
  - cbn. split; [discriminate|]. intros (Hnin & _).
    apply not_In_existsb in Hnin. congruence.
  - assert (~ In uri (default [] (ignorePaths w))) as Hnin.
    { intros Hin. apply existsb_eqb_In in Hin. congruence. }
    destruct (includeRegex h) as [re|]; cbn.
    + destruct (regexp_test h re uri) as [err|[]]; cbn;
        [split; [discriminate|intros (_ & ? & _); discriminate]
        | |split; [discriminate|intros (_ & ? & _); discriminate]].
      destruct (excludeRegex h) as [re'|]; cbn; [|by split].
      destruct (regexp_test h re' uri) as [err|[]]; cbn;
        split; try discriminate; try done;
        intros (_ & _ & ?); discriminate.
    + destruct (excludeRegex h) as [re'|]; cbn; [|by split].
      destruct (regexp_test h re' uri) as [err|[]]; cbn;
        split; try discriminate; try done;
        intros (_ & _ & ?); discriminate.
Qed.

Lemma ignoreEvent_undesired (h : Host) (ns : StatusBar.Namespace)
  (uri : string) (w : World) :
  outcome (isDesiredFile h uri w) = Returned false ->
  ignoreEvent h ns uri w
  = {| outcome := Returned true; world := w; effects := [] |}.
Proof.
  intros Hout. unfold ignoreEvent, bind.
  destruct (isDesiredFile_pure h uri w) as [Hw He].
  destruct (isDesiredFile h uri w) as [o w1 es]. cbn in Hout, Hw, He.
  by subst.
Qed.

(** X12: when [isDesiredFile] answers [false] for the path of a file-save
    or active-editor-change event, be it for the ignore list, the include
    pattern or the exclude pattern, the listener does not invoke the add
    command and emits nothing. *)
Theorem undesired_file_never_added (h : Host) (ns : StatusBar.Namespace)
  (uri : string) (w : World) :
  outcome (isDesiredFile h uri w) = Returned false ->
  onDidSaveTextDocument h ns uri w
  = {| outcome := Returned tt; world := w; effects := [] |}
  /\ effects (onDidChangeActiveTextEditor h ns (Some uri) w) = [].
Proof.
  intros Hout. split.
  - unfold onDidSaveTextDocument, bind.
    by rewrite (ignoreEvent_undesired h ns uri w Hout).
  - unfold onDidChangeActiveTextEditor, bind.
    pose proof (statusbar_call_frame ns "hideItem" None None w)
      as (He & _ & Hig & _).
    destruct (StatusBar.call ns "hideItem" None None w) as [[v|e] w1 es];
      cbn in He, Hig |- *; [|done].
    rewrite (ignoreEvent_undesired h ns uri w1)
      by (by rewrite (isDesiredFile_frame h uri w w1 Hig)).
    cbn. by rewrite He.
Qed.

Lemma undesired_file_never_added_witness :
  outcome (isDesiredFile (Scenario.filtering_host (Some ".cs") None)
             "/ws/readme.md" Demo.world) = Returned false
  /\ effects (onDidSaveTextDocument (Scenario.filtering_host (Some ".cs") None)
                StatusBar.exports "/ws/readme.md" Demo.world) = [].
Proof.
  split; [reflexivity|].
  destruct (undesired_file_never_added
              (Scenario.filtering_host (Some ".cs") None) StatusBar.exports
              "/ws/readme.md" Demo.world eq_refl) as [Hsave _].
  by rewrite Hsave.
Defined.

(** X13: a malformed include pattern makes the save listener throw for
    every path that is not on the ignore list, before the add command is
    reached; a path on the ignore list is still skipped quietly. *)
Theorem malformed_include_pattern (h : Host) (ns : StatusBar.Namespace)
  (uri re : string) (err : JsError) (w : World) :
  includeRegex h = Some re ->
  regexp_test h re uri = inl err ->
  let r := onDidSaveTextDocument h ns uri w in
  effects r = [] /\ world r = w
  /\ (In uri (default [] (ignorePaths w)) -> outcome r = Returned tt)
  /\ (~ In uri (default [] (ignorePaths w)) -> outcome r = Thrown err).
Proof.
  intros Hre Htest. cbv zeta.
  unfold onDidSaveTextDocument, ignoreEvent, isDesiredFile. step.
  destruct (existsb (String.eqb uri) (default [] (ignorePaths w))) eqn:Hig;
    cbn.
  - repeat split; try done. intros Hnin.
    apply not_In_existsb in Hnin. congruence.
  - rewrite Hre, Htest. cbn. repeat split; try done.
    intros Hin. apply existsb_eqb_In in Hin. congruence.
Qed.

Lemma malformed_include_pattern_witness :
  regexp_test (Scenario.filtering_host (Some "(") None) "(" "/ws/new.ts"
  = inl (OtherError "Invalid regular expression")
  /\ outcome (onDidSaveTextDocument (Scenario.filtering_host (Some "(") None)
                StatusBar.exports "/ws/new.ts" Demo.world)
     = Thrown (OtherError "Invalid regular expression").
Proof.
  split; [reflexivity|].
  destruct (malformed_include_pattern
              (Scenario.filtering_host (Some "(") None) StatusBar.exports
              "/ws/new.ts" "(" (OtherError "Invalid regular expression")
              Demo.world eq_refl eq_refl) as (_ & _ & _ & Hthrow).
  apply Hthrow. intros [].
Defined.

Lemma ignoreEvent_desired (h : Host) (ns : StatusBar.Namespace)
  (uri : string) (w : World) :
  StatusBar.member ns "isVisible" = Some StatusBar.FVisible ->
  outcome (isDesiredFile h uri w) = Returned true ->
  ignoreEvent h ns uri w
  = {| outcome := Returned (_statusBarItemVisible w); world := w;
       effects := [] |}.
Proof.
  intros Hvis Hout. unfold ignoreEvent, bind.
  destruct (isDesiredFile_pure h uri w) as [Hw He].
  destruct (isDesiredFile h uri w) as [o w1 es]. cbn in Hout, Hw, He.
  subst. cbn. unfold StatusBar.call. rewrite Hvis.
  unfold StatusBar.apply, StatusBar.visible. step.
  by destruct (_statusBarItemVisible w).
Qed.

(** X14: when [isVisible] is bound to the module's [visible], a save of an
    eligible file is ignored while the status-bar item is flagged visible,
    and leads straight to the add command, with its prompt, while it is
    not. *)
Theorem visible_item_suppresses_save (h : Host) (ns : StatusBar.Namespace)
  (uri : string) (w : World) :
  StatusBar.member ns "isVisible" = Some StatusBar.FVisible ->
  outcome (isDesiredFile h uri w) = Returned true ->
  let r := onDidSaveTextDocument h ns uri w in
  (_statusBarItemVisible w = true ->
   r = {| outcome := Returned tt; world := w; effects := [] |})
  /\ (_statusBarItemVisible w = false ->
      effects r
      = ExecuteCommand "extension.csproj.add" uri
        :: effects (csprojCommand h ns uri true w)).
Proof.
  intros Hvis Hout. cbv zeta. unfold onDidSaveTextDocument, bind.
  rewrite (ignoreEvent_desired h ns uri w Hvis Hout).
  split; intros ->; cbn; [reflexivity|].
  unfold executeCommand_add, bind. cbn.
  by rewrite !effects_after.
Qed.

Lemma visible_item_suppresses_save_witness :
  let w := world (StatusBar.displayStatusBarItem (Some "App.csproj")
                    (Some false)
                    (world (StatusBar.createStatusBarItem Demo.world))) in
  _statusBarItemVisible w = true
  /\ onDidSaveTextDocument Demo.host Scenario.bound "/ws/new.ts" w
     = {| outcome := Returned tt; world := w; effects := [] |}.
Proof.
  cbv zeta. split; [reflexivity|].
  destruct (visible_item_suppresses_save Demo.host Scenario.bound
              "/ws/new.ts"
              (world (StatusBar.displayStatusBarItem (Some "App.csproj")
                        (Some false)
                        (world (StatusBar.createStatusBarItem Demo.world))))
              eq_refl eq_refl) as [Hvisible _].
  exact (Hvisible eq_refl).
Defined.

(** X15: when [displayItem] and [isVisible] are bound to the module's
    [displayStatusBarItem] and [visible] and the item exists, dismissing the
    add prompt leaves the item flagged visible with the text [Add to
    <descriptor>], so that the next save of an eligible file is ignored. *)
Theorem dismissal_silences_next_save (h : Host) (ns : StatusBar.Namespace)
  (path : string) (w : World) (c : Csproj) (item : StatusBarItem) :
  StatusBar.member ns "displayItem" = Some StatusBar.FDisplayStatusBarItem ->
  StatusBar.member ns "isVisible" = Some StatusBar.FVisible ->
  _statusBarItem w = Some item ->
  resolve h path = inr c ->
  CsprojUtil.hasFile h c path w = false ->
  path <> EmptyString -> endsWith path ".csproj" = false ->
  has_separator path = true ->
  choose h (Path.basename path +:+ " is not in " +:+ name c
            +:+ ", would you like to add it?") = None ->
  let w1 := world (csprojCommand h ns path true w) in
  _statusBarItemVisible w1 = true
  /\ (text <$> _statusBarItem w1) = Some ("Add to " +:+ name c)
  /\ forall uri,
       outcome (isDesiredFile h uri w1) = Returned true ->
       onDidSaveTextDocument h ns uri w1
       = {| outcome := Returned tt; world := w1; effects := [] |}.
Proof.
  intros Hdisp Hvis Hitem Hres Hhas Hne Hend Hsep Hpick. cbv zeta.
  assert (_statusBarItemVisible (world (csprojCommand h ns path true w)) = true
          /\ (text <$> _statusBarItem (world (csprojCommand h ns path true w)))
             = Some ("Add to " +:+ name c)) as [Hflag Htext].
  { rewrite csprojCommand_guarded by done.
    unfold CsprojUtil.forFile. step. rewrite Hres. cbn. rewrite Hhas. cbn.
    unfold prompt_result. rewrite Hpick. cbn.
    unfold pickAction, StatusBar.call. rewrite Hdisp.
    unfold StatusBar.apply, StatusBar.displayStatusBarItem. step.
    rewrite Hitem. by cbn. }
  split; [exact Hflag|]. split; [exact Htext|].
  intros uri Hdesired. unfold onDidSaveTextDocument, bind.
  rewrite (ignoreEvent_desired h ns uri _ Hvis Hdesired), Hflag.
  reflexivity.
Qed.

Lemma dismissal_silences_next_save_witness :
  let w := world (StatusBar.createStatusBarItem Demo.world) in
  let w1 := world (csprojCommand (Demo.host_with None false) Scenario.bound
                     "/ws/new.ts" true w) in
  CsprojUtil.hasFile (Demo.host_with None false) Demo.App "/ws/new.ts" w
  = false
  /\ _statusBarItemVisible w1 = true.
Proof.
  cbv zeta.
  assert (CsprojUtil.hasFile (Demo.host_with None false) Demo.App "/ws/new.ts"
            (world (StatusBar.createStatusBarItem Demo.world)) = false)
    as Hhas by (vm_compute; reflexivity).
  split; [exact Hhas|].
  destruct (dismissal_silences_next_save (Demo.host_with None false)
              Scenario.bound "/ws/new.ts"
              (world (StatusBar.createStatusBarItem Demo.world)) Demo.App
              {| text := EmptyString; tooltip := EmptyString; shown := false;
                 command := "extension.csproj.add" |}
              eq_refl eq_refl eq_refl eq_refl Hhas ltac:(discriminate)
              eq_refl eq_refl eq_refl) as [Hflag _].
  exact Hflag.
Defined.

(** ** The ignore list, once more *)

(** Witness of [never_for_this_file_silences_saves]: the second item of the
    prompt is "Never For This File". *)
Lemma never_for_this_file_silences_saves_witness :
  CsprojUtil.hasFile (Demo.host_with (Some 1%nat) false) Demo.App
    "/ws/new.ts" Demo.world = false
  /\ effects (onDidSaveTextDocument (Demo.host_with (Some 1%nat) false)
                StatusBar.exports "/ws/new.ts"
                (world (csprojCommand (Demo.host_with (Some 1%nat) false)
                          StatusBar.exports "/ws/new.ts" true Demo.world)))
     = [].
Proof.
  assert (CsprojUtil.hasFile (Demo.host_with (Some 1%nat) false) Demo.App
            "/ws/new.ts" Demo.world = false) as Hhas
    by (vm_compute; reflexivity).
  split; [exact Hhas|].
  destruct (never_for_this_file_silences_saves
              (Demo.host_with (Some 1%nat) false) StatusBar.exports
              "/ws/new.ts" Demo.world Demo.App eq_refl Hhas
              ltac:(discriminate) eq_refl eq_refl eq_refl) as [_ Hsave].
  exact Hsave.
Defined.

(** X17: putting a path on the ignore list makes it ineligible, whatever
    the patterns say, and clearing the list makes every path the patterns
    admit eligible again. *)
Theorem ignore_then_clear (h : Host) (addPath uri : string) (w : World) :
  include_admits h uri ->
  exclude_passes h uri ->
  let w1 := world (updateIgnoredPaths addPath w) in
  let w2 := world (clearIgnoredPathsCommand w1) in
  outcome (isDesiredFile h addPath w1) = Returned false
  /\ outcome (isDesiredFile h uri w2) = Returned true.
Proof.
  intros Hinc Hexc. cbv zeta. split.
  - unfold isDesiredFile, updateIgnoredPaths. step.
    rewrite existsb_eqb_In; [reflexivity|].
    apply in_or_app. right. by left.
  - unfold include_admits, exclude_passes in *.
    unfold isDesiredFile, updateIgnoredPaths, clearIgnoredPathsCommand. step.
    destruct (includeRegex h) as [re|]; cbn.
    + rewrite Hinc. cbn. destruct (excludeRegex h) as [re'|]; cbn; [|done].
      by rewrite Hexc.
    + destruct (excludeRegex h) as [re'|]; cbn; [|done]. by rewrite Hexc.
Qed.

Lemma ignore_then_clear_witness :
  include_admits Demo.host "/ws/new.ts"
  /\ outcome (isDesiredFile Demo.host "/ws/new.ts"
                (world (clearIgnoredPathsCommand
                          (world (updateIgnoredPaths "/ws/new.ts" Demo.world)))))
     = Returned true.
Proof.
  split; [exact I|].
  destruct (ignore_then_clear Demo.host "/ws/new.ts" "/ws/new.ts" Demo.world
              I I) as [_ Hclear].
  exact Hclear.
Defined.

(** ** Deletions that are not tracked *)

Lemma count_zero_Forall (p : Effect -> bool) (es : list Effect) :
  Forall (fun e => p e = false) es -> count p es = 0%nat.
Proof.
  induction 1 as [|e es He _ IH]; [reflexivity|].
  by rewrite count_cons, He, IH.
Qed.

Lemma deliver_untracked (h : Host) (notifications : list (Z * string)) :
  forall w,
    timer w = None ->
    Forall (fun e => tracked h w (snd e) = false) notifications ->
    exists w' es,
      deliver h notifications w
      = {| outcome := Returned tt; world := w'; effects := es |}
      /\ trees w' = trees w /\ timer w' = None /\ heap w' = heap w
      /\ _csprojRemovals w' = _csprojRemovals w
      /\ invalidationDisabled w' = invalidationDisabled w
      /\ Forall (fun e => is_flush e = false /\ is_prompt e = false
                          /\ is_mutation e = false) es.
Proof.
  induction notifications as [|[t p] rest IH]; intros w Htimer Hun.
  - exists w, []. by repeat split.
  - inversion Hun as [|? ? Hp Hrest]; subst. cbn [snd] in Hp.
    destruct (IH (set_now t w) Htimer Hrest)
      as (w' & es & Hrun & Htr & Htm & Hheap & Href & Hinv & Hes).
    cbn [deliver].
    rewrite (bind_run _ _ w tt (set_now t w) []) by reflexivity.
    rewrite (bind_run _ _ (set_now t w) tt (set_now t w) [])
      by (apply timerExpired_idle; cbn; by rewrite Htimer).
    unfold tracked in Hp. rewrite !after_nil.
    destruct (resolve h p) as [err|c] eqn:Hres.
    + rewrite (bind_run _ _ (set_now t w) tt (set_now t w)
                 [ForFile p; ConsoleTrace err])
        by (by rewrite handleFileDeletion_run, Hres).
      rewrite Hrun. cbn.
      exists w', (ForFile p :: ConsoleTrace err :: es).
      repeat split; try done. by repeat constructor.
    + rewrite (bind_run _ _ (set_now t w) tt (set_now t w) [ForFile p]).
      2:{ rewrite handleFileDeletion_run, Hres.
          change (CsprojUtil.hasFile h c p (set_now t w))
            with (CsprojUtil.hasFile h c p w).
          by rewrite Hp. }
      rewrite Hrun. cbn. exists w', (ForFile p :: es).
      repeat split; try done. by repeat constructor.
Qed.

(** X18: deletion notifications for files that do not resolve to a
    descriptor, or that their descriptor does not list, are dropped: however
    many arrive and whenever, nothing is queued, no timer is started, no
    flush and no prompt happen, and the descriptors stay as they are. *)
Theorem untracked_deletions_are_dropped (h : Host)
  (ts : gmap string (list ItemEntry)) (ignored : option (list string))
  (notifications : list (Z * string)) :
  Forall (fun e => tracked h (init ts ignored) (snd e) = false)
    notifications ->
  let r := timeline h notifications (init ts ignored) in
  outcome r = Returned tt
  /\ count is_flush (effects r) = 0%nat
  /\ count is_prompt (effects r) = 0%nat
  /\ count is_mutation (effects r) = 0%nat
  /\ trees (world r) = ts
  /\ timer (world r) = None
  /\ heap (world r) = [[]].
Proof.
  intros Hun. cbv zeta.
  destruct (deliver_untracked h notifications (init ts ignored) eq_refl Hun)
    as (w' & es & Hrun & Htr & Htm & Hheap & _ & _ & Hes).
  unfold timeline. rewrite (bind_run _ _ _ tt w' es Hrun).
  unfold settle. rewrite (bind_run _ _ w' w' w' []) by reflexivity.
  rewrite Htm. cbn. rewrite app_nil_r.
  repeat split; try done; apply count_zero_Forall;
    (eapply Forall_impl; [exact Hes|]); by intros e (? & ? & ?).
Qed.

Lemma untracked_deletions_are_dropped_witness :
  count is_prompt
    (effects (timeline Demo.host [(0, "/ws/zz.cs"); (5000, "/tmp/x.cs")]
                (init Demo.trees None))) = 0%nat.
Proof.
  assert (Forall (fun e => tracked Demo.host (init Demo.trees None) (snd e)
                           = false)
            [(0, "/ws/zz.cs"); (5000, "/tmp/x.cs")]) as Hun
    by (repeat (constructor; [vm_compute; reflexivity|]); constructor).
  destruct (untracked_deletions_are_dropped Demo.host Demo.trees None
              [(0, "/ws/zz.cs"); (5000, "/tmp/x.cs")] Hun)
    as (_ & _ & Hprompt & _).
  exact Hprompt.
Defined.

(** ** Nothing stays queued *)

Lemma init_settled (ts : gmap string (list ItemEntry))
  (ignored : option (list string)) :
  batcher_settled (init ts ignored).
Proof. split; cbn; [lia|reflexivity]. Qed.

Lemma handleFileDeletion_settled (h : Host) (path : string) (w : World) :
  batcher_settled w -> batcher_settled (world (handleFileDeletion h path w)).
Proof.
  intros Hw. pose proof Hw as [Href Htimer].
  rewrite handleFileDeletion_run.
  destruct (resolve h path) as [err|c]; [exact Hw|].
  destruct (CsprojUtil.hasFile h c path w); [|exact Hw].
  split; cbn; [by rewrite length_alter|].
  split; [reflexivity|]. rewrite list_lookup_alter_eq.
  destruct (lookup_lt_is_Some_2 _ _ Href) as [l ->]. cbn.
  eexists; split; [reflexivity|]. by destruct l.
Qed.

Lemma timerExpired_settled (h : Host) (w : World) :
  batcher_settled w ->
  batcher_settled (world (timerExpired h w))
  /\ (forall deadline args,
        timer w = Some (deadline, args) -> deadline <= now w ->
        timer (world (timerExpired h w)) = None).
Proof.
  intros Hw. pose proof Hw as [Href Htimer].
  destruct (timer w) as [[d a]|] eqn:Htm.
  - destruct Htimer as (-> & l & Hl & Hne).
    destruct (Z.le_gt_cases d (now w)) as [Hdue|Hlate].
    + rewrite (timerExpired_fires h w d _ l) by done.
      rewrite flush_run by done. cbn. split; [|done].
      split; cbn; [rewrite length_app; cbn; lia|].
      by rewrite list_lookup_middle.
    + rewrite timerExpired_idle by (rewrite Htm; lia).
      split; [exact Hw|]. intros ? ? [= <- <-] ?. lia.
  - rewrite timerExpired_idle by (by rewrite Htm).
    split; [exact Hw|]. intros ? ? [=].
Qed.

Lemma timerExpired_returns (h : Host) (w : World) :
  outcome (timerExpired h w) = Returned tt.
Proof.
  unfold timerExpired, bind, get. cbn.
  destruct (timer w) as [[d a]|]; [|reflexivity].
  destruct (d <=? now w); [|reflexivity].
  unfold modify. cbn. rewrite !outcome_after.
  apply try_catch_unit_total. reflexivity.
Qed.

Lemma handleFileDeletion_returns (h : Host) (path : string) (w : World) :
  outcome (handleFileDeletion h path w) = Returned tt.
Proof.
  rewrite handleFileDeletion_run.
  destruct (resolve h path) as [err|c]; [reflexivity|].
  by destruct (CsprojUtil.hasFile h c path w).
Qed.

Lemma deliver_settled (h : Host) (notifications : list (Z * string)) :
  forall w,
    batcher_settled w ->
    outcome (deliver h notifications w) = Returned tt
    /\ batcher_settled (world (deliver h notifications w)).
Proof.
  induction notifications as [|[t p] rest IH]; intros w Hw; [by split|].
  cbn [deliver]. unfold bind, modify. cbn.
  destruct (timerExpired_settled h (set_now t w) Hw) as [Hw2 _].
  pose proof (timerExpired_returns h (set_now t w)) as Ho2.
  destruct (timerExpired h (set_now t w)) as [o2 w2 es2].
  cbn in Ho2, Hw2 |- *. subst o2.
  pose proof (handleFileDeletion_settled h p w2 Hw2) as Hw3.
  pose proof (handleFileDeletion_returns h p w2) as Ho3.
  destruct (handleFileDeletion h p w2) as [o3 w3 es3].
  cbn in Ho3, Hw3 |- *. subst o3.
  destruct (IH w3 Hw3) as [Ho4 Hw4].
  destruct (deliver h rest w3) as [o4 w4 es4]. cbn in Ho4, Hw4 |- *.
  by split.
Qed.

(** X19: after any sequence of deletion notifications has been handled and
    the last timer has expired, nothing stays queued: no timer is pending
    and the array [_csprojRemovals] refers to is empty, whether the batches
    were confirmed, declined or silent. *)
Theorem pending_deletions_are_flushed (h : Host)
  (ts : gmap string (list ItemEntry)) (ignored : option (list string))
  (notifications : list (Z * string)) :
  let w := world (timeline h notifications (init ts ignored)) in
  timer w = None /\ heap w !! _csprojRemovals w = Some [].
Proof.
  cbv zeta.
  destruct (deliver_settled h notifications (init ts ignored)
              (init_settled ts ignored)) as [Ho1 Hw1].
  unfold timeline, bind.
  destruct (deliver h notifications (init ts ignored)) as [o1 w1 es1].
  cbn in Ho1, Hw1. subst o1. rewrite world_after.
  unfold settle, bind, get, modify. cbn.
  destruct (timer w1) as [[d a]|] eqn:Htm; cbn.
  - destruct (timerExpired_settled h (set_now (Z.max (now w1) d) w1) Hw1)
      as [[_ Hw3] Hnone].
    specialize (Hnone d a Htm ltac:(cbn; lia)).
    destruct (timerExpired h (set_now (Z.max (now w1) d) w1)) as [o3 w3 es3].
    cbn in Hw3, Hnone |- *. rewrite Hnone in Hw3. by split.
  - destruct Hw1 as [_ Hw1]. rewrite Htm in Hw1. by split.
Qed.

(** ** Every pair of a confirmed batch gets its turn *)

Lemma removal_trace_invocations (h : Host) (rs : list CsprojAndFile) :
  remove_invocations (flat_map (removal_trace h) rs) = map filePath rs
  /\ removeFile_calls (flat_map (removal_trace h) rs) = rs
  /\ count is_error_message (flat_map (removal_trace h) rs)
     = length (omap (fun r => removeFile_failure h (csproj r) (filePath r)) rs).
Proof.
  unfold remove_invocations, removeFile_calls.
  induction rs as [|r rs (IH1 & IH2 & IH3)]; [by repeat split|].
  cbn [flat_map]. rewrite !omap_app, count_app, IH1, IH2, IH3.
  unfold removal_trace. cbn.
  destruct (removeFile_failure h (csproj r) (filePath r)); cbn;
    repeat split; by destruct r.
Qed.

Lemma remove_invocations_app (xs ys : list Effect) :
  remove_invocations (xs ++ ys)
  = (remove_invocations xs ++ remove_invocations ys)%list.
Proof. apply omap_app. Qed.

Lemma removeFile_calls_app (xs ys : list Effect) :
  removeFile_calls (xs ++ ys)
  = (removeFile_calls xs ++ removeFile_calls ys)%list.
Proof. apply omap_app. Qed.

(** X20: a confirmed (or silent) flush issues the remove command for every
    pair of the batch, in the order of the batch, and goes on after a
    removal has failed; it shows one error message per failed removal. *)
Theorem confirmed_flush_attempts_every_pair (h : Host)
  (removals : list CsprojAndFile) (w : World) :
  removals <> [] ->
  flush_confirmed h removals = true ->
  let r := debouncedRemoveFromCsproj_func h removals w in
  remove_invocations (effects r) = map filePath removals
  /\ removeFile_calls (effects r) = removals
  /\ count is_error_message (effects r)
     = length (omap (fun r => removeFile_failure h (csproj r) (filePath r))
                 removals).
Proof.
  intros Hne Hconf. cbv zeta. rewrite flush_run by done. rewrite Hconf.
  cbn [effects].
  destruct (removal_trace_invocations h removals) as (H1 & H2 & H3).
  match goal with
  | |- context [DisableInvalidation :: ?tl] =>
      change (DisableInvalidation :: tl) with ([DisableInvalidation] ++ tl)%list
  end.
  rewrite !remove_invocations_app, !removeFile_calls_app, !count_app,
    H1, H2, H3.
  destruct (silentDeletion h);
    rewrite ?count_cons; cbn; rewrite ?app_nil_r; repeat split; lia.
Qed.

Lemma confirmed_flush_attempts_every_pair_witness :
  let removals :=
    [ {| csproj := Demo.App; filePath := "/ws/a.cs" |};
      {| csproj := Demo.App; filePath := "/ws/b.cs" |};
      {| csproj := Demo.App; filePath := "/ws/c.cs" |} ] in
  flush_confirmed Scenario.failing_remove_host removals = true
  /\ remove_invocations
       (effects (debouncedRemoveFromCsproj_func Scenario.failing_remove_host
                   removals Demo.world))
     = ["/ws/a.cs"; "/ws/b.cs"; "/ws/c.cs"]
  /\ count is_error_message
       (effects (debouncedRemoveFromCsproj_func Scenario.failing_remove_host
                   removals Demo.world)) = 1%nat.
Proof.
  cbv zeta. split; [reflexivity|].
  destruct (confirmed_flush_attempts_every_pair Scenario.failing_remove_host
              [ {| csproj := Demo.App; filePath := "/ws/a.cs" |};
                {| csproj := Demo.App; filePath := "/ws/b.cs" |};
                {| csproj := Demo.App; filePath := "/ws/c.cs" |} ]
              Demo.world ltac:(discriminate) eq_refl) as (Hinv & _ & Herr).
  split; [exact Hinv | exact Herr].
Defined.

(** ** Shutting down *)

(** X21: when no status-bar item exists, as after an activation that the
    configuration disabled, [deactivate] logs, invalidates everything and
    then throws a [TypeError]: with the module's exports as they are, and
    also when [hideItem] is bound to [hideStatusBarItem]. *)
Theorem deactivate_without_item (h : Host) (ns : StatusBar.Namespace)
  (w : World) :
  enabled h = false ->
  _statusBarItem w = None ->
  StatusBar.member ns "hideItem" = None
  \/ StatusBar.member ns "hideItem" = Some StatusBar.FHideStatusBarItem ->
  let w1 := world (activate h ns w) in
  let r := deactivate ns w1 in
  w1 = w
  /\ effects r = [ConsoleLog "extension.csproj#deactivate"; InvalidateAll]
  /\ exists msg, outcome r = Thrown (TypeError msg).
Proof.
  intros Hoff Hitem Hmember. cbv zeta.
  unfold activate. rewrite Hoff. cbn.
  split; [reflexivity|].
  unfold deactivate, CsprojUtil.invalidateAll, StatusBar.call.
  destruct Hmember as [-> | ->]; step.
  - split; [reflexivity|]. by eexists.
  - unfold StatusBar.hideStatusBarItem. step. rewrite Hitem. cbn.
    split; [reflexivity|]. by eexists.
Qed.

Lemma deactivate_without_item_witness :
  enabled Scenario.disabled_host = false
  /\ outcome (deactivate StatusBar.exports
                (world (activate Scenario.disabled_host StatusBar.exports
                          Demo.world)))
     = Thrown (TypeError "StatusBar.hideItem is not a function")
  /\ outcome (deactivate Scenario.bound
                (world (activate Scenario.disabled_host Scenario.bound
                          Demo.world)))
     = Thrown (TypeError "Cannot set property 'text' of undefined").
Proof.
  split; [reflexivity|].
  destruct (deactivate_without_item Scenario.disabled_host StatusBar.exports
              Demo.world eq_refl eq_refl (or_introl eq_refl))
    as (_ & _ & msg1 & H1).
  destruct (deactivate_without_item Scenario.disabled_host Scenario.bound
              Demo.world eq_refl eq_refl (or_intror eq_refl))
    as (_ & _ & msg2 & H2).
  split; vm_compute; reflexivity.
Defined.

(** ** The add command when everything works *)

(** X22: when [displayItem] is bound to [displayStatusBarItem] and the item
    exists, the explicit add command on a file its descriptor does not list
    adds it with the tag resolved from its name, persists, shows [Contained
    in <descriptor>] in the status bar and tells the user, in that order and
    without asking. *)
Theorem explicit_add_succeeds (h : Host) (ns : StatusBar.Namespace)
  (path : string) (w : World) (c : Csproj) (item : StatusBarItem) :
  StatusBar.member ns "displayItem" = Some StatusBar.FDisplayStatusBarItem ->
  _statusBarItem w = Some item ->
  resolve h path = inr c ->
  CsprojUtil.hasFile h c path w = false ->
  persist_failure h c = None ->
  path <> EmptyString -> endsWith path ".csproj" = false ->
  has_separator path = true ->
  let r := csprojCommand h ns path false w in
  effects r =
    [ConsoleLog ("extension.csproj#trigger(" +:+ Path.basename path +:+ ")");
     ForFile path;
     AddFile c path (getTypeForFile (Path.basename path) (itemType h));
     Persist c true;
     ShowInformationMessage
       ("Added " +:+ Path.basename path +:+ " to " +:+ name c) []]
  /\ _statusBarItemVisible (world r) = true
  /\ (text <$> _statusBarItem (world r)) = Some ("Contained in " +:+ name c)
  /\ ignorePaths (world r) = ignorePaths w.
Proof.
  intros Hdisp Hitem Hres Hhas Hper Hne Hend Hsep. cbv zeta.
  rewrite csprojCommand_guarded by done.
  unfold CsprojUtil.forFile. step. rewrite Hres. cbn. rewrite Hhas. cbn.
  unfold pickAction, CsprojUtil.addFile, CsprojUtil.persist, StatusBar.call.
  cbn [csproj target filePath fileName]. rewrite Hdisp, Hper.
  unfold StatusBar.apply, StatusBar.displayStatusBarItem. step.
  rewrite Hhas. cbn. rewrite Hitem. by cbn.
Qed.

Lemma explicit_add_succeeds_witness :
  let w := world (StatusBar.createStatusBarItem Demo.world) in
  CsprojUtil.hasFile Demo.host Demo.App "/ws/new.ts" w = false
  /\ effects (csprojCommand Demo.host Scenario.bound "/ws/new.ts" false w)
     = [ConsoleLog "extension.csproj#trigger(new.ts)";
        ForFile "/ws/new.ts";
        AddFile Demo.App "/ws/new.ts" "TypeScriptCompile";
        Persist Demo.App true;
        ShowInformationMessage "Added new.ts to App.csproj" []].
Proof.
  cbv zeta.
  assert (CsprojUtil.hasFile Demo.host Demo.App "/ws/new.ts"
            (world (StatusBar.createStatusBarItem Demo.world)) = false)
    as Hhas by (vm_compute; reflexivity).
  split; [exact Hhas|].
  destruct (explicit_add_succeeds Demo.host Scenario.bound "/ws/new.ts"
              (world (StatusBar.createStatusBarItem Demo.world)) Demo.App
              {| text := EmptyString; tooltip := EmptyString; shown := false;
                 command := "extension.csproj.add" |}
              eq_refl eq_refl eq_refl Hhas eq_refl ltac:(discriminate)
              eq_refl eq_refl) as [Heff _].
  rewrite Heff. vm_compute. reflexivity.
Defined.

(** ** Starting up *)

(** X23: activation does nothing at all when the configuration disables the
    extension.  Otherwise it registers the three commands and the four
    listeners before it touches the status bar, so they are registered even
    when the status-bar call throws; and when [createItem] is bound to
    [createStatusBarItem], activation returns with a hidden item whose
    command is the add command, also when it is run a second time. *)
Theorem activation (h : Host) (ns : StatusBar.Namespace) (w : World) :
  (enabled h = false ->
   activate h ns w = {| outcome := Returned tt; world := w; effects := [] |})
  /\ (enabled h = true ->
      effects (activate h ns w)
      = [ConsoleLog "extension.csproj#activate";
         RegisterCommand "extension.csproj.add";
         RegisterCommand "extension.csproj.remove";
         RegisterCommand "extension.csproj.clearIgnoredPaths";
         RegisterListener "onDidSaveTextDocument";
         RegisterListener "onDidChangeActiveTextEditor";
         RegisterListener "csprojWatcher.onDidChange";
         RegisterListener "deleteFileWatcher.onDidDelete"]
      /\ (StatusBar.member ns "createItem"
          = Some StatusBar.FCreateStatusBarItem ->
          let w1 := world (activate h ns w) in
          let w2 := world (activate h ns w1) in
          outcome (activate h ns w) = Returned tt
          /\ _statusBarItem w1
             = Some {| text := EmptyString; tooltip := EmptyString;
                       shown := false; command := "extension.csproj.add" |}
          /\ _statusBarItem w2 = _statusBarItem w1
          /\ _statusBarItemVisible w2 = false)).
Proof.
  split; intros Hen; unfold activate; rewrite Hen; cbn; [reflexivity|].
  split.
  - step.
    pose proof (statusbar_call_frame ns "createItem" None None w) as (He & _).
    destruct (StatusBar.call ns "createItem" None None w) as [[v|e] w1 es];
      cbn in He |- *; by rewrite He.
  - intros Hcreate. cbv zeta. unfold StatusBar.call. rewrite Hcreate.
    unfold StatusBar.apply, StatusBar.createStatusBarItem. step.
    destruct (_statusBarItem w); by cbn.
Qed.

Lemma activation_witness :
  enabled Demo.host = true
  /\ StatusBar.member Scenario.bound "createItem"
     = Some StatusBar.FCreateStatusBarItem
  /\ outcome (activate Demo.host Scenario.bound Demo.world) = Returned tt.
Proof.
  split; [reflexivity|]. split; [reflexivity|].
  destruct (activation Demo.host Scenario.bound Demo.world) as [_ Hon].
  destruct (Hon eq_refl) as [_ Hbound].
  destruct (Hbound eq_refl) as [Hout _].
  exact Hout.
Defined.


(** ** The handlers and their default argument *)

(** X5: a command handler throws in exactly one case: it is invoked without
    a uri while no editor is active, and then it throws before doing
    anything.  Given a uri or an active editor, the add command and the
    remove command return normally, every failure inside being caught. *)
Theorem handlers_throw_only_without_editor (h : Host)
  (ns : StatusBar.Namespace) (activeTextEditor arg : option string)
  (prompt : bool) (provided : option Csproj) (w : World) :
  let added := csprojCommand_handler h ns activeTextEditor arg prompt w in
  let removed := csprojRemoveCommand_handler h activeTextEditor arg provided w in
  match arg, activeTextEditor with
  | None, None =>
      (exists msg, outcome added = Thrown (TypeError msg))
      /\ world added = w /\ effects added = []
      /\ (exists msg, outcome removed = Thrown (TypeError msg))
      /\ world removed = w /\ effects removed = []
  | _, _ => outcome added = Returned tt /\ outcome removed = Returned tt
  end.
Proof.
  cbv zeta. unfold csprojCommand_handler, csprojRemoveCommand_handler,
    default_uri, bind.
  destruct arg as [path|]; [|destruct activeTextEditor as [path|]]; cbn.
  - rewrite !outcome_after. apply command_bodies_return.
  - rewrite !outcome_after. apply command_bodies_return.
  - repeat split; by eexists.
Qed.

(** ** Computations that leave the suppression alone *)












(** ** The flush, turn by turn *)







(** ** What every interleaving keeps *)









(** ** A flush that is not interrupted *)




(** ** Suppression, with flushes taking turns *)

(** When the timer starts a second flush while the first is waiting for its
    answer, the first flush restores invalidation at its end and the second
    goes on to remove with suppression off. *)
Lemma overlapping_flushes_are_not_bracketed :
  let s := run_loop Demo.host
             [Notify 0 "/ws/a.cs"; Elapse 2000;
              Notify 2500 "/ws/b.cs"; Elapse 4500;
              Resume 0; Resume 0; Resume 0; Resume 0]
             (boot Demo.trees None) in
  loop_trace s =
    [ForFile "/ws/a.cs"; DisableInvalidation;
     ShowWarningMessage "a.cs was deleted. Remove it from App.csproj?" ["Yes"];
     ForFile "/ws/b.cs"; DisableInvalidation;
     ShowWarningMessage "b.cs was deleted. Remove it from App.csproj?" ["Yes"];
     ExecuteCommand "extension.csproj.remove" "/ws/a.cs";
     RemoveFile Demo.App "/ws/a.cs";
     EnableInvalidation;
     ExecuteCommand "extension.csproj.remove" "/ws/b.cs";
     RemoveFile Demo.App "/ws/b.cs";
     EnableInvalidation]
  /\ bracketed false (loop_trace s) = false
  /\ in_flight s = []
  /\ invalidationDisabled (loop_world s) = false.
Proof. vm_compute. repeat split; reflexivity. Qed.


